(** * short-link: a shallow embedding of [shorturl.py]

    The program shortens URLs through an HTTP endpoint, keeps a bounded
    history of the results in a JSON file and offers maintenance operations
    on that history.  Every function of the script that touches the history
    or the network is embedded below as a state-passing function over a
    [World] that holds the history file, the clock, the remote server, the
    console, the keyboard and the clipboard.

    Conventions.
    - Time stamps ([time.time()]) are integers (seconds); only their order,
      their sums and their truth value are used by the program.  The sum of
      a time stamp and an integer is exact; it raises when the integer is
      too large for a float ([Py.float_overflow]).
    - [urlparse], [time.ctime], [str.isdigit], [int] and the markup parser
      of [rich] are library functions: they are Section variables, and
      [urlparse_basic], [ctime_basic], [ctime_error_basic], [isdigit_basic],
      [int_basic] and [markup_basic] are concrete instances used to run the
      embedding on examples.
    - An exception that nothing catches ends the program: the functions that
      can raise one return a [Result], and the world they leave is the world
      at the [raise].
    - Python truth values are written out: [None], [0] and the empty string
      are false. *)

From Stdlib Require Import ZArith List String Ascii Bool Lia.
From Stdlib Require Import Numbers.DecimalString.
Import ListNotations.

Open Scope list_scope.
Open Scope string_scope.
Open Scope Z_scope.

(** ** Python built-ins used by the script *)

Module Py.

(** [needle in hay] on strings. *)
Fixpoint contains (needle hay : string) : bool :=
  String.prefix needle hay ||
  match hay with
  | EmptyString => false
  | String _ rest => contains needle rest
  end.

(** Truth value of a string: non-empty. *)
Definition truthy (s : string) : bool :=
  match s with
  | EmptyString => false
  | String _ _ => true
  end.

(** Truth value of an optional number: neither [None] nor zero. *)
Definition truthy_num (x : option Z) : bool :=
  match x with
  | None => false
  | Some n => negb (n =? 0)
  end.

(** Truth value of an optional string: neither [None] nor empty. *)
Definition truthy_opt (x : option string) : bool :=
  match x with
  | None => false
  | Some s => truthy s
  end.

(** [a == b] on optional strings ([None == None] holds). *)
Definition eq_opt (a b : option string) : bool :=
  match a, b with
  | None, None => true
  | Some x, Some y => String.eqb x y
  | _, _ => false
  end.

Definition is_space (c : ascii) : bool :=
  let n := nat_of_ascii c in
  ((9 <=? n) && (n <=? 13) || (28 <=? n) && (n <=? 32))%nat.

Fixpoint lstrip (s : string) : string :=
  match s with
  | EmptyString => EmptyString
  | String c rest => if is_space c then lstrip rest else s
  end.

Fixpoint rstrip (s : string) : string :=
  match s with
  | EmptyString => EmptyString
  | String c rest =>
      match rstrip rest with
      | EmptyString => if is_space c then EmptyString else String c EmptyString
      | r => String c r
      end
  end.

(** [s.strip()] *)
Definition strip (s : string) : string := rstrip (lstrip s).

(** Whether the integer [n] is too large for a float: [x + n] with a float
    [x] converts [n] first, and the conversion raises [OverflowError] when
    [n] rounds to 2^1024 or beyond, that is from 2^1024 - 2^970 on, in
    either sign. *)
Definition float_overflow (n : Z) : bool := 2 ^ 1024 - 2 ^ 970 <=? Z.abs n.

(** [s * n] *)
Fixpoint repeat_str (s : string) (n : nat) : string :=
  match n with
  | O => EmptyString
  | S k => s ++ repeat_str s k
  end.

(** [l[-n:]]: the last [n] elements, the whole list when it is shorter. *)
Definition last_n {A : Type} (n : nat) (l : list A) : list A :=
  skipn (List.length l - n) l.

End Py.

(** ** Data model *)

(** One object of the JSON array in [url_history.json]. *)
Record Entry : Type := mkEntry {
  long_url : string;
  short_url : string;
  timestamp : string;
  custom_name : option string;
  expiry_timestamp : option Z
}.

(** What a [requests.get] followed by [raise_for_status] can do. *)
Inductive Response : Type :=
| Body (text : string)
| HTTPError (err : string)
| ConnectionError (err : string)
| RequestException (err : string).

(** A row of the history table: name, long URL, short URL, time stamp,
    expiry. *)
Definition Row : Type := (option string * string * string * string * string)%type.

(** What [console.print] is given. *)
Inductive Output : Type :=
| Print (text : string)
| PrintPanel (title body : string)
| PrintTable (rows : list Row).

(** The exceptions that the script lets through. *)
Inductive Exception : Type :=
| EOFError         (* [input] at the end of the input *)
| ValueError       (* [int] on a string it cannot read; [time.ctime] *)
| OverflowError    (* an integer too large for a float; [time.ctime] *)
| MarkupError      (* [console.print] on a text that is not valid markup *)
| OSError.         (* [time.ctime] *)

(** Why a run stops early: an exception was raised and nothing caught it,
    or the fuel of the embedding ran out. *)
Inductive Stop : Type :=
| Raised (e : Exception)
| OutOfFuel.

Coercion Raised : Exception >-> Stop.

(** How a step ends: with a value, or stopped. *)
Inductive Result (A : Type) : Type :=
| Value (a : A)
| Stopped (why : Stop).
Arguments Value {A} a.
Arguments Stopped {A} why.

(** The program's environment.  [file = None] means that
    [url_history.json] does not exist.  [server n url] is the outcome of the
    [n]-th request (counted from 0) when it asks for [url].  [requests] and
    [sleeps] record the calls of [requests.get] and [time.sleep] made so
    far, [stdin] holds the lines still to be typed. *)
Record World : Type := mkWorld {
  file : option (list Entry);
  clock : Z;
  server : nat -> string -> Response;
  requests : list string;
  sleeps : list Z;
  console : list Output;
  stdin : list string;
  clipboard : string;
  cwd : string
}.

Definition set_file (f : option (list Entry)) (w : World) : World :=
  mkWorld f (clock w) (server w) (requests w) (sleeps w) (console w) (stdin w) (clipboard w) (cwd w).

Definition set_clock (t : Z) (w : World) : World :=
  mkWorld (file w) t (server w) (requests w) (sleeps w) (console w) (stdin w) (clipboard w) (cwd w).

Definition set_requests (r : list string) (w : World) : World :=
  mkWorld (file w) (clock w) (server w) r (sleeps w) (console w) (stdin w) (clipboard w) (cwd w).

Definition set_sleeps (s : list Z) (w : World) : World :=
  mkWorld (file w) (clock w) (server w) (requests w) s (console w) (stdin w) (clipboard w) (cwd w).

Definition set_console (c : list Output) (w : World) : World :=
  mkWorld (file w) (clock w) (server w) (requests w) (sleeps w) c (stdin w) (clipboard w) (cwd w).

Definition set_stdin (i : list string) (w : World) : World :=
  mkWorld (file w) (clock w) (server w) (requests w) (sleeps w) (console w) i (clipboard w) (cwd w).

Definition set_clipboard (text : string) (w : World) : World :=
  mkWorld (file w) (clock w) (server w) (requests w) (sleeps w) (console w) (stdin w) text (cwd w).

(** ** The state monad of the script *)

Definition M (A : Type) : Type := World -> A * World.

Definition ret {A : Type} (a : A) : M A := fun w => (a, w).

Definition bind {A B : Type} (m : M A) (k : A -> M B) : M B :=
  fun w => let (a, w') := m w in k a w'.

Declare Scope prog_scope.
Delimit Scope prog_scope with prog.
Notation "x <- m ;; k" := (bind m (fun x => k))
  (at level 61, m at next level, right associativity) : prog_scope.
Notation "m ;;; k" := (bind m (fun _ => k))
  (at level 61, right associativity) : prog_scope.
Open Scope prog_scope.

(** The world an action leaves, and the value it returns. *)
Definition exec {A : Type} (m : M A) (w : World) : World := snd (m w).
Definition eval {A : Type} (m : M A) (w : World) : A := fst (m w).

(** Sequencing of actions that can stop: what follows a [raise] is not
    run. *)
Definition bind_result {A B : Type} (m : M (Result A)) (k : A -> M (Result B))
  : M (Result B) :=
  r <- m ;;
  match r with
  | Value a => k a
  | Stopped why => ret (Stopped why)
  end.

Notation "x <~ m ;; k" := (bind_result m (fun x => k))
  (at level 61, m at next level, right associativity) : prog_scope.

(** An action that cannot stop. *)
Definition lift {A : Type} (m : M A) : M (Result A) :=
  a <- m ;; ret (Value a).

(** [raise e] *)
Definition raise {A : Type} (e : Exception) : M (Result A) :=
  ret (Stopped e).

(** ** Primitive effects *)

(** [time.time()] *)
Definition time_time : M Z := fun w => (clock w, w).

(** [time.sleep(s)]: the clock moves on and the sleep is recorded. *)
Definition time_sleep (s : Z) : M unit :=
  fun w => (tt, set_sleeps (sleeps w ++ [s])%list (set_clock (clock w + s) w)).

(** [requests.get(url)] with [raise_for_status()]. *)
Definition requests_get (url : string) : M Response :=
  fun w => (server w (List.length (requests w)) url,
            set_requests (requests w ++ [url])%list w).

(** [console.print(...)] of a panel or of a text that the script spells out
    in full: its markup is balanced, so the call shows it and returns.  (The
    texts into which a value is spliced go through [console_print_markup]
    below, and the table through [print_table].) *)
Definition console_print (o : Output) : M unit :=
  fun w => (tt, set_console (console w ++ [o])%list w).

(** [os.path.exists(HISTORY_FILE)] *)
Definition history_exists : M bool :=
  fun w => (match file w with Some _ => true | None => false end, w).

(** [json.load] of the history file (the empty list stands in when the file
    is absent; every caller tests [history_exists] first). *)
Definition json_load : M (list Entry) :=
  fun w => (match file w with Some h => h | None => [] end, w).

(** [json.dump(history, file)] on the history file opened for writing. *)
Definition json_dump (history : list Entry) : M unit :=
  fun w => (tt, set_file (Some history) w).

(** [pyperclip.paste()] *)
Definition pyperclip_paste : M string := fun w => (clipboard w, w).

(** [input(prompt)]: [None] is the end of the input ([EOFError]). *)
Definition input : M (option string) :=
  fun w => match stdin w with
           | [] => (None, w)
           | line :: rest => (Some line, set_stdin rest w)
           end.

(** ** Concrete library instances for running examples *)

Definition is_scheme_char (c : ascii) : bool :=
  let n := nat_of_ascii c in
  ((65 <=? n) && (n <=? 90) || (97 <=? n) && (n <=? 122) ||
   (48 <=? n) && (n <=? 57) || (n =? 43) || (n =? 45) || (n =? 46))%nat.

Definition is_alpha (c : ascii) : bool :=
  let n := nat_of_ascii c in
  ((65 <=? n) && (n <=? 90) || (97 <=? n) && (n <=? 122))%nat.

(** Splits [s] at the first ':' when everything before it is a scheme
    character: [Some (scheme, rest)]. *)
Fixpoint split_scheme (s : string) : option (string * string) :=
  match s with
  | EmptyString => None
  | String c rest =>
      if Ascii.eqb c ":" then Some (EmptyString, rest)
      else if is_scheme_char c then
        match split_scheme rest with
        | Some (sch, r) => Some (String c sch, r)
        | None => None
        end
      else None
  end.

(** The authority: everything up to the first '/', '?' or '#'. *)
Fixpoint take_netloc (s : string) : string :=
  match s with
  | EmptyString => EmptyString
  | String c rest =>
      if Ascii.eqb c "/" || Ascii.eqb c "?" || Ascii.eqb c "#" then EmptyString
      else String c (take_netloc rest)
  end.

(** A scheme/authority splitter in the manner of [urllib.parse.urlparse]:
    the scheme is what precedes the first ':' (letters, digits, '+', '-',
    '.', starting with a letter), the authority is what follows "//". *)
Definition urlparse_basic (url : string) : option (string * string) :=
  let (scheme, rest) :=
    match url, split_scheme url with
    | String c _, Some (String d sch, r) =>
        if is_alpha c then (String d sch, r) else (EmptyString, url)
    | _, _ => (EmptyString, url)
    end in
  match rest with
  | String "/" (String "/" after) => Some (scheme, take_netloc after)
  | _ => Some (scheme, EmptyString)
  end.

(** A stand-in for [time.ctime]: the number of seconds in decimal. *)
Definition ctime_basic (t : Z) : string :=
  "t=" ++ NilEmpty.string_of_int (Z.to_int t).

(** A stand-in for the failures of [time.ctime], in the manner of a 64-bit
    Linux: [OverflowError] when the time stamp does not fit [time_t],
    [OSError] when its year does not fit the calendar. *)
Definition ctime_error_basic (t : Z) : option Exception :=
  if 2 ^ 63 <=? Z.abs t then Some OverflowError
  else if 67767976233532800 <=? Z.abs t then Some OSError
  else None.

Definition is_digit (c : ascii) : bool :=
  let n := nat_of_ascii c in ((48 <=? n) && (n <=? 57))%nat.

Fixpoint all_digits (s : string) : bool :=
  match s with
  | EmptyString => true
  | String c rest => is_digit c && all_digits rest
  end.

Fixpoint int_acc (acc : Z) (s : string) : Z :=
  match s with
  | EmptyString => acc
  | String c rest => int_acc (10 * acc + (Z.of_nat (nat_of_ascii c) - 48)) rest
  end.

(** The character SUPERSCRIPT TWO in UTF-8: a digit for [str.isdigit], not
    a numeral for [int]. *)
Definition superscript_two : string :=
  String (ascii_of_nat 194) (String (ascii_of_nat 178) EmptyString).

(** A stand-in for [str.isdigit]: the non-empty strings of ASCII digits,
    and the superscript two. *)
Definition isdigit_basic (s : string) : bool :=
  Py.truthy s && all_digits s || String.eqb s superscript_two.

(** A stand-in for [int] on the strings that [isdigit_basic] accepts: the
    value of a string of ASCII digits, [None] ([ValueError]) otherwise. *)
Definition int_basic (s : string) : option Z :=
  if Py.truthy s && all_digits s then Some (int_acc 0 s) else None.

Definition is_tag_start (c : ascii) : bool :=
  let n := nat_of_ascii c in
  ((97 <=? n) && (n <=? 122) || (n =? 35) || (n =? 47) || (n =? 64))%nat.

(** The text of a tag, when [s] is what follows a '[': the characters
    before the first ']', provided that no '[' comes first. *)
Fixpoint tag_text (s : string) : option string :=
  match s with
  | EmptyString => None
  | String c rest =>
      if Ascii.eqb c "]" then Some EmptyString
      else if Ascii.eqb c "[" then None
      else option_map (String c) (tag_text rest)
  end.

(** The name of a tag: its text before the first '='. *)
Fixpoint tag_name (tag : string) : string :=
  match tag with
  | EmptyString => EmptyString
  | String c rest =>
      if Ascii.eqb c "=" then EmptyString else String c (tag_name rest)
  end.

(** The open tags (innermost first) once [name] is closed: the innermost
    tag of that name is taken out, and an empty [name] closes the innermost
    tag; [None] when there is nothing to close. *)
Fixpoint close_tag (name : string) (opened : list string) : option (list string) :=
  match opened with
  | [] => None
  | tag :: outer =>
      if Py.truthy name && negb (String.eqb tag name)
      then option_map (cons tag) (close_tag name outer)
      else Some outer
  end.

(** Reads [s] from left to right; [escaped] tells whether an odd number of
    backslashes precedes, [opened] holds the tags that are open. *)
Fixpoint markup_scan (escaped : bool) (opened : list string) (s : string) : bool :=
  match s with
  | EmptyString => true
  | String c rest =>
      if Ascii.eqb c "\" then markup_scan (negb escaped) opened rest
      else if Ascii.eqb c "[" then
        match rest with
        | String d _ =>
            if is_tag_start d then
              match tag_text rest with
              | Some tag =>
                  if escaped then markup_scan false opened rest
                  else
                    match tag with
                    | String "/" name =>
                        match close_tag (Py.strip (tag_name name)) opened with
                        | Some outer => markup_scan false outer rest
                        | None => false
                        end
                    | _ => markup_scan false (tag_name tag :: opened) rest
                    end
              | None => markup_scan false opened rest
              end
            else markup_scan false opened rest
        | EmptyString => true
        end
      else markup_scan false opened rest
  end.

(** A stand-in for the markup parser of [rich], reduced to what makes it
    raise [MarkupError]: a closing tag [[/name]] that names no open tag, or
    [[/]] with no tag open.  Tags are compared as they are written. *)
Definition markup_basic (text : string) : bool := markup_scan false [] text.

(** How the [for entry in history] loop of [update_link] ends. *)
Inductive Scan : Type :=
| Updated (history : list Entry)   (* [updated = True; break] *)
| Invalid                          (* the [return] after "New URL is not valid." *)
| NotFound.                        (* the loop ran to its end *)

(** The history as the script loads it: empty when there is no file. *)
Definition stored (w : World) : list Entry :=
  match file w with
  | Some history => history
  | None => []
  end.



(** [kept] is [full] with some elements left out, the others in their
    order. *)
Inductive Subsequence {A : Type} : list A -> list A -> Prop :=
| sub_nil : Subsequence [] []
| sub_keep (x : A) (kept full : list A) :
    Subsequence kept full -> Subsequence (x :: kept) (x :: full)
| sub_drop (x : A) (kept full : list A) :
    Subsequence kept full -> Subsequence kept (x :: full).

(** ** Worlds for running examples *)

(** A record named [name] with the given expiry. *)
Definition sample_entry (name : string) (expiry : option Z) : Entry :=
  mkEntry "https://example.com/page" "http://tinyurl.com/abc"
          "Tue Nov 14 22:13:20 2023" (Some name) expiry.


(** A server that refuses every connection. *)
Definition offline : nat -> string -> Response :=
  fun _ _ => ConnectionError "Connection refused".

(** A server that fails twice and then answers. *)
Definition flaky : nat -> string -> Response :=
  fun n _ =>
    match n with
    | O => ConnectionError "Connection refused"
    | S O => HTTPError "503 Server Error"
    | _ => Body "http://tinyurl.com/abc"
    end.

(** A server that always answers. *)
Definition online : nat -> string -> Response :=
  fun _ _ => Body "http://tinyurl.com/abc".

(** A fresh session: nothing requested, slept, printed or typed yet. *)
Definition session (history : option (list Entry)) (now : Z)
    (srv : nat -> string -> Response) : World :=
  mkWorld history now srv [] [] [] [] EmptyString "/home/user".

(** A history with an expired record, a record whose expiry is zero, a
    record without expiry and a record that expires in an hour. *)
Definition mixed_history : list Entry :=
  [ sample_entry "old" (Some 1699990000); sample_entry "zero" (Some 0);
    sample_entry "keep" None; sample_entry "soon" (Some 1700003600) ].

(** The user pastes or types [url], while the server is [srv]. *)
Definition pasting (url : string) (srv : nat -> string -> Response) : World :=
  set_clipboard url (session (Some []) 1700000000 srv).

Definition typing (lines : list string) (srv : nat -> string -> Response) : World :=
  set_stdin lines (session (Some []) 1700000000 srv).

(** A record saved without a name. *)
Definition unnamed_entry : Entry :=
  mkEntry "https://example.com/page" "http://tinyurl.com/abc"
          "Tue Nov 14 22:13:20 2023" None None.

(** A visit of the menu that lists, looks at the submenu, shortens a typed
    URL, prunes, shortens the clipboard and leaves. *)
Definition busy_session : World :=
  set_stdin ["2"; "7"; "1"; "4"; "1"; "https://example.com/page"; "home"; "60";
             "4"; "5"; "8"]
    (set_clipboard "https://example.org/" (session (Some mixed_history) 1700000000 flaky)).

(** ** The script *)

Section ShortLink.

(** [urllib.parse.urlparse], reduced to what the script reads from its
    result: [Some (scheme, netloc)], or [None] when it raises
    [ValueError]. *)
Variable urlparse : string -> option (string * string).

(** [time.ctime] *)
Variable ctime : Z -> string.

(** [str.isdigit], and [int] on a string: [None] when it raises
    [ValueError]. *)
Variable isdigit : string -> bool.
Variable int : string -> option Z.

(** Whether [rich] can read [text] as console markup; when it cannot,
    [console.print] raises [MarkupError]. *)
Variable markup_ok : string -> bool.

(** The exception that [time.ctime(t)] raises, if it raises one; [ctime t]
    is its result otherwise. *)
Variable ctime_error : Z -> option Exception.

Definition HISTORY_FILE : string := "url_history.json".
Definition MAX_HISTORY_SIZE : nat := 5.
Definition SHORTENER_API : string := "http://tinyurl.com/api-create.php?url=".

Definition is_valid_url (url : string) : bool :=
  match urlparse url with
  | Some (scheme, netloc) => Py.truthy scheme && Py.truthy netloc
  | None => false
  end.

(** The [try]/[except] of [get_short_url]: the body of a good response,
    or the message made from the exception. *)
Definition response_text (response : Response) : string :=
  match response with
  | Body text => text
  | HTTPError http_err => "HTTP Error: " ++ http_err
  | ConnectionError conn_err => "Connection Error: " ++ conn_err
  | RequestException req_err => "Request Error: " ++ req_err
  end.

Definition get_short_url (api_url long_url : string) : M string :=
  response <- requests_get (api_url ++ long_url) ;;
  ret (response_text response).

(** The [for _ in range(n)] loop of [shorten_url]; [short_url] is the
    variable the loop leaves behind for the final [return]. *)
Fixpoint shorten_attempts (n : nat) (long_url short_url : string) : M string :=
  match n with
  | O => ret short_url
  | S k =>
      short_url <- get_short_url SHORTENER_API long_url ;;
      if negb (Py.contains "Error" short_url) then ret short_url
      else time_sleep 1 ;;; shorten_attempts k long_url short_url
  end.

Definition shorten_url (long_url : string) : M string :=
  if negb (is_valid_url long_url) then ret "Invalid URL format."
  else shorten_attempts 3 long_url EmptyString.

(** The list written by [save_to_history] when [history] was loaded and
    [entry] is the new record. *)
Definition bounded_append (history : list Entry) (entry : Entry) : list Entry :=
  let history := (history ++ [entry])%list in
  if (MAX_HISTORY_SIZE <? List.length history)%nat
  then Py.last_n MAX_HISTORY_SIZE history
  else history.

(** [save_to_history], for an [expiry_seconds] that can be added to the
    clock (the call of the menu, which passes whatever integer was typed, is
    [save_to_history_call] below). *)
Definition save_to_history (long_url short_url : string)
    (custom_name : option string) (expiry_seconds : option Z) : M unit :=
  present <- history_exists ;;
  history <- (if present then json_load else ret []) ;;
  expiry_timestamp <-
    match expiry_seconds with
    | Some seconds =>
        if Py.truthy_num expiry_seconds
        then (now <- time_time ;; ret (Some (now + seconds)))
        else ret None
    | None => ret None
    end ;;
  now <- time_time ;;
  json_dump (bounded_append history
               (mkEntry long_url short_url (ctime now) custom_name expiry_timestamp)).

(** The test [entry.get("expiry_timestamp") and
    current_time > entry["expiry_timestamp"]]. *)
Definition is_expired (current_time : Z) (entry : Entry) : bool :=
  match expiry_timestamp entry with
  | Some t => Py.truthy_num (Some t) && (t <? current_time)
  | None => false
  end.

Definition expiry_text (entry : Entry) : string :=
  match expiry_timestamp entry with
  | Some t => if Py.truthy_num (Some t) then ctime t else "Never"
  | None => "Never"
  end.

(** [console.print(text)] for a text into which values of the program are
    spliced: [rich] reads the whole text as markup and raises before it
    shows anything when it cannot. *)
Definition console_print_markup (text : string) : M (Result unit) :=
  if markup_ok text then lift (console_print (Print text))
  else raise MarkupError.

(** The row of the history table for one record. *)
Definition table_row (entry : Entry) : Row :=
  (custom_name entry, long_url entry, short_url entry, timestamp entry,
   expiry_text entry).

(** The exception raised by the [time.ctime] of the row of [entry]: it is
    called when the expiry is true. *)
Definition row_error (entry : Entry) : option Exception :=
  match expiry_timestamp entry with
  | Some t => if Py.truthy_num (Some t) then ctime_error t else None
  | None => None
  end.

(** The loop that fills the table: a row for each record that is not
    expired, unless [time.ctime] raises on the way. *)
Fixpoint table_rows (current_time : Z) (history : list Entry) : Result (list Row) :=
  match history with
  | [] => Value []
  | entry :: rest =>
      if is_expired current_time entry then table_rows current_time rest
      else
        match row_error entry with
        | Some e => Stopped e
        | None =>
            match table_rows current_time rest with
            | Value rows => Value (table_row entry :: rows)
            | Stopped why => Stopped why
            end
        end
  end.

(** The cells of a row are read as markup; a name that is [None] makes an
    empty cell. *)
Definition cells_ok (row : Row) : bool :=
  let '(name, long, short, stamp, expiry) := row in
  match name with Some text => markup_ok text | None => true end
  && markup_ok long && markup_ok short && markup_ok stamp && markup_ok expiry.

(** [console.print(table)]: nothing is shown when a cell makes it raise. *)
Definition print_table (rows : list Row) : M (Result unit) :=
  if forallb cells_ok rows then lift (console_print (PrintTable rows))
  else raise MarkupError.

Definition show_history : M (Result unit) :=
  present <- history_exists ;;
  if negb present
  then lift (console_print (Print "[bold red]History not found.[/bold red]"))
  else
    history <- json_load ;;
    match history with
    | [] => lift (console_print (Print "[bold red]No history available.[/bold red]"))
    | _ =>
        current_time <- time_time ;;
        rows <~ ret (table_rows current_time history) ;;
        print_table rows
    end.

Definition delete_expired_links : M unit :=
  present <- history_exists ;;
  if negb present then console_print (Print "[bold red]History not found.[/bold red]")
  else
    history <- json_load ;;
    current_time <- time_time ;;
    json_dump (filter (fun entry => negb (is_expired current_time entry)) history).

(** The body of the loop for the entry whose name matches. *)
Definition update_entry (entry : Entry) (new_long_url : option string)
    (new_expiry_seconds : option Z) : M (option Entry) :=
  changed <-
    match new_long_url with
    | Some url =>
        if Py.truthy url then
          if is_valid_url url then
            short <- shorten_url url ;;
            ret (Some (mkEntry url short (timestamp entry) (custom_name entry)
                               (expiry_timestamp entry)))
          else
            console_print (Print "[bold red]New URL is not valid.[/bold red]") ;;;
            ret None
        else ret (Some entry)
    | None => ret (Some entry)
    end ;;
  match changed with
  | None => ret None
  | Some entry =>
      match new_expiry_seconds with
      | Some seconds =>
          now <- time_time ;;
          ret (Some (mkEntry (long_url entry) (short_url entry) (timestamp entry)
                             (custom_name entry) (Some (now + seconds))))
      | None => ret (Some entry)
      end
  end.

Fixpoint update_scan (history : list Entry) (name : option string)
    (new_long_url : option string) (new_expiry_seconds : option Z) : M Scan :=
  match history with
  | [] => ret NotFound
  | entry :: rest =>
      if Py.eq_opt (custom_name entry) name then
        r <- update_entry entry new_long_url new_expiry_seconds ;;
        ret match r with
            | Some entry' => Updated (entry' :: rest)
            | None => Invalid
            end
      else
        r <- update_scan rest name new_long_url new_expiry_seconds ;;
        ret match r with
            | Updated rest' => Updated (entry :: rest')
            | other => other
            end
  end.

(** [update_link], for a [new_expiry_seconds] that can be added to the
    clock (the call of the menu is [update_link_call] below). *)
Definition update_link (name : option string) (new_long_url : option string)
    (new_expiry_seconds : option Z) : M unit :=
  present <- history_exists ;;
  if negb present then console_print (Print "[bold red]History not found.[/bold red]")
  else
    history <- json_load ;;
    r <- update_scan history name new_long_url new_expiry_seconds ;;
    match r with
    | Invalid => ret tt
    | Updated history' =>
        json_dump history' ;;;
        console_print (Print "[bold green]Link updated successfully.[/bold green]")
    | NotFound => console_print (Print "[bold red]Link not found.[/bold red]")
    end.

(** The line that shows the result of a shortening. *)
Definition shortened_line (short_url : string) : string :=
  "[bold cyan]Shortened URL: " ++ short_url ++ "[/bold cyan]".

Definition shorten_url_from_clipboard : M (Result unit) :=
  long_url <- pyperclip_paste ;;
  if negb (is_valid_url long_url) then
    lift (console_print
            (Print "[bold red]Clipboard does not contain a valid URL.[/bold red]"))
  else
    short_url <- shorten_url long_url ;;
    _ <~ console_print_markup (shortened_line short_url) ;;
    if negb (Py.contains "Error" short_url)
    then lift (save_to_history long_url short_url None None)
    else ret (Value tt).

(** The test of [remind_expiring_links]:
    [expiry_timestamp and (expiry_timestamp - current_time) <= 3600]. *)
Definition is_expiring (current_time : Z) (entry : Entry) : bool :=
  match expiry_timestamp entry with
  | Some t => Py.truthy_num (Some t) && (t - current_time <=? 3600)
  | None => false
  end.

(** The texts of the first three lines printed for one entry. *)
Definition reminder_link (entry : Entry) : string :=
  "[bold yellow]Reminder: Link '" ++ short_url entry
  ++ "' is about to expire.[/bold yellow]".

Definition reminder_long_url (entry : Entry) : string :=
  "[bold white]Long URL: " ++ long_url entry ++ "[/bold white]".

Definition reminder_expiry (expiry_timestamp : Z) : string :=
  "[bold red]Expires at: " ++ ctime expiry_timestamp ++ "[/bold red]".

(** The four lines printed for one entry. *)
Definition reminder (entry : Entry) (expiry_timestamp : Z) : list Output :=
  [ Print (reminder_link entry);
    Print (reminder_long_url entry);
    Print (reminder_expiry expiry_timestamp);
    Print (Py.repeat_str "-" 40) ].

(** The four calls of [console.print] for one entry: a call that raises,
    or [time.ctime] inside the third, ends them. *)
Definition print_reminder (entry : Entry) (expiry_timestamp : Z) : M (Result unit) :=
  _ <~ console_print_markup (reminder_link entry) ;;
  _ <~ console_print_markup (reminder_long_url entry) ;;
  match ctime_error expiry_timestamp with
  | Some e => raise e
  | None =>
      _ <~ console_print_markup (reminder_expiry expiry_timestamp) ;;
      lift (console_print (Print (Py.repeat_str "-" 40)))
  end.

Fixpoint remind_loop (current_time : Z) (history : list Entry) : M (Result unit) :=
  match history with
  | [] => ret (Value tt)
  | entry :: rest =>
      _ <~ match expiry_timestamp entry with
           | Some t =>
               if Py.truthy_num (Some t) && (t - current_time <=? 3600)
               then print_reminder entry t
               else ret (Value tt)
           | None => ret (Value tt)
           end ;;
      remind_loop current_time rest
  end.

Definition remind_expiring_links : M (Result unit) :=
  present <- history_exists ;;
  if negb present
  then lift (console_print (Print "[bold red]History not found.[/bold red]"))
  else
    history <- json_load ;;
    current_time <- time_time ;;
    remind_loop current_time history.

Definition nl : string := String (ascii_of_nat 10) EmptyString.

Definition show_about : M unit :=
  console_print (PrintPanel "[bold bright_magenta]About[/bold bright_magenta]"
    ("[bold bright_cyan]URL Shortener Code" ++ nl
     ++ "Contact me: https://github.com/lysandraBars" ++ nl
     ++ "Author: T7C" ++ nl
     ++ "Description: This code helps to shorten URLs and manage the history of shortened links.[/bold bright_cyan]")).

Definition get_file : M (Result unit) :=
  present <- history_exists ;;
  if present then
    dir <- (fun w => (cwd w, w)) ;;
    console_print_markup ("[bold bright_cyan]History saved at: "
                          ++ dir ++ "/" ++ HISTORY_FILE ++ "[/bold bright_cyan]")
  else lift (console_print (Print "[bold red]History not found.[/bold red]")).

Definition usega : M unit :=
  console_print (Print "[bold bright_cyan]Usega functionality not implemented in this version.[/bold bright_cyan]").

(** *** The menu

    [input] can end the program with [EOFError]; the loops of the menu
    take fuel, one unit per iteration. *)

(** [input(prompt).strip()] *)
Definition input_strip : M (Result string) :=
  line <- input ;;
  ret match line with
      | Some s => Value (Py.strip s)
      | None => Stopped EOFError
      end.

(** The [while True] loop that asks for the URL to shorten. *)
Fixpoint ask_long_url (fuel : nat) : M (Result string) :=
  match fuel with
  | O => ret (Stopped OutOfFuel)
  | S fuel' =>
      long_url <~ input_strip ;;
      if Py.truthy long_url && is_valid_url long_url then ret (Value long_url)
      else if negb (Py.truthy long_url) then
        console_print (Print "[bold red]URL cannot be empty.[/bold red]") ;;;
        ask_long_url fuel'
      else
        console_print (Print "[bold red]Invalid URL format.[/bold red]") ;;;
        ask_long_url fuel'
  end.

(** [s or None] *)
Definition or_none (s : string) : option string :=
  if Py.truthy s then Some s else None.

(** [int(s) if s.isdigit() else None]: [int] is called on the strings that
    [isdigit] accepts, and its [ValueError] is not caught. *)
Definition int_or_none (s : string) : Result (option Z) :=
  if isdigit s then
    match int s with
    | Some n => Value (Some n)
    | None => Stopped ValueError
    end
  else Value None.

(** Whether the sum [time.time() + expiry_seconds] of [save_to_history]
    raises: it is made when [expiry_seconds] is true, and raises when the
    integer is too large for a float. *)
Definition expiry_overflows (expiry_seconds : option Z) : bool :=
  match expiry_seconds with
  | Some seconds => Py.truthy_num expiry_seconds && Py.float_overflow seconds
  | None => false
  end.

(** [save_to_history] as the menu calls it, with the integer that was
    typed: when the sum raises [OverflowError], the file has been read and
    nothing is written. *)
Definition save_to_history_call (long_url short_url : string)
    (custom_name : option string) (expiry_seconds : option Z) : M (Result unit) :=
  if expiry_overflows expiry_seconds then raise OverflowError
  else lift (save_to_history long_url short_url custom_name expiry_seconds).

(** [update_link] as the menu calls it.  When the integer that was typed is
    too large for a float, the sum [time.time() + new_expiry_seconds]
    raises [OverflowError] for the record that bears the name, after its
    URL was dealt with and before anything is written; the other ways
    through the function do not reach the sum. *)
Definition update_link_call (name : option string) (new_long_url : option string)
    (new_expiry_seconds : option Z) : M (Result unit) :=
  match new_expiry_seconds with
  | Some seconds =>
      if Py.float_overflow seconds then
        present <- history_exists ;;
        if negb present
        then lift (console_print (Print "[bold red]History not found.[/bold red]"))
        else
          history <- json_load ;;
          r <- update_scan history name new_long_url new_expiry_seconds ;;
          match r with
          | Invalid => ret (Value tt)
          | Updated _ => raise OverflowError
          | NotFound => lift (console_print (Print "[bold red]Link not found.[/bold red]"))
          end
      else lift (update_link name new_long_url new_expiry_seconds)
  | None => lift (update_link name new_long_url new_expiry_seconds)
  end.

(** Choice 1 of the menu once its three questions are answered: shorten,
    show the result and save it. *)
Definition shorten_and_save (long_url : string) (custom_name : option string)
    (expiry_seconds : option Z) : M (Result unit) :=
  short_url <- shorten_url long_url ;;
  _ <~ console_print_markup (shortened_line short_url) ;;
  if negb (Py.contains "Error" short_url)
  then save_to_history_call long_url short_url custom_name expiry_seconds
  else ret (Value tt).

(** Choice 1 of the menu. *)
Definition choice_shorten (fuel : nat) : M (Result unit) :=
  long_url <~ ask_long_url fuel ;;
  name <~ input_strip ;;
  seconds <~ input_strip ;;
  expiry_seconds <~ ret (int_or_none seconds) ;;
  shorten_and_save long_url (or_none name) expiry_seconds.

(** Choice 3 of the menu. *)
Definition choice_update : M (Result unit) :=
  name <~ input_strip ;;
  if Py.truthy name then
    new_long_url <~ input_strip ;;
    seconds <~ input_strip ;;
    new_expiry_seconds <~ ret (int_or_none seconds) ;;
    update_link_call (Some name) (or_none new_long_url) new_expiry_seconds
  else lift (console_print (Print "[bold red]Custom name cannot be empty.[/bold red]")).

Definition other_panel : Output :=
  PrintPanel "[bold bright_magenta]Other[/bold bright_magenta]"
    ("[bold bright_cyan][1] View About" ++ nl ++ "[2] Get File Path" ++ nl
     ++ "[3] Usega" ++ nl ++ "[4] Back to Main Menu[/bold bright_cyan]").

(** Choice 7 of the menu: the nested loop. *)
Fixpoint other_menu (fuel : nat) : M (Result unit) :=
  match fuel with
  | O => ret (Stopped OutOfFuel)
  | S fuel' =>
      lift (console_print other_panel) ;;;
      sub_choice <~ input_strip ;;
      if String.eqb sub_choice "1" then show_about ;;; other_menu fuel'
      else if String.eqb sub_choice "2" then _ <~ get_file ;; other_menu fuel'
      else if String.eqb sub_choice "3" then usega ;;; other_menu fuel'
      else if String.eqb sub_choice "4" then ret (Value tt)
      else
        console_print (Print "[bold red]Invalid choice, please try again.[/bold red]") ;;;
        other_menu fuel'
  end.

Definition main_panel : Output :=
  PrintPanel "[bold bright_magenta]URL SHORTENER - @T7C[/bold bright_magenta]"
    ("[bold bright_cyan][1] Shorten URL" ++ nl ++ "[2] View History" ++ nl
     ++ "[3] Update Link" ++ nl ++ "[4] Delete Expired Links" ++ nl
     ++ "[5] Shorten URL from Clipboard" ++ nl
     ++ "[6] Remind About Expiring Links" ++ nl ++ "[7] Other" ++ nl
     ++ "[8] Exit[/bold bright_cyan]").

Fixpoint main_menu (fuel : nat) : M (Result unit) :=
  match fuel with
  | O => ret (Stopped OutOfFuel)
  | S fuel' =>
      lift (console_print main_panel) ;;;
      choice <~ input_strip ;;
      if String.eqb choice "1" then _ <~ choice_shorten fuel' ;; main_menu fuel'
      else if String.eqb choice "2" then _ <~ show_history ;; main_menu fuel'
      else if String.eqb choice "3" then _ <~ choice_update ;; main_menu fuel'
      else if String.eqb choice "4" then delete_expired_links ;;; main_menu fuel'
      else if String.eqb choice "5" then
        _ <~ shorten_url_from_clipboard ;; main_menu fuel'
      else if String.eqb choice "6" then _ <~ remind_expiring_links ;; main_menu fuel'
      else if String.eqb choice "7" then _ <~ other_menu fuel' ;; main_menu fuel'
      else if String.eqb choice "8" then
        lift (console_print (Print "[bold green]Exiting the application...[/bold green]"))
      else
        console_print (Print "[bold red]Invalid choice, please try again.[/bold red]") ;;;
        main_menu fuel'
  end.


(** *** Vocabulary of the properties *)

(** The [expiry_timestamp] that [save_to_history] computes at time [now]. *)
Definition expiry_after (now : Z) (expiry_seconds : option Z) : option Z :=
  match expiry_seconds with
  | Some seconds => if seconds =? 0 then None else Some (now + seconds)
  | None => None
  end.

(** The record that [save_to_history] appends at time [now]. *)
Definition new_entry (now : Z) (long_url short_url : string)
    (custom_name : option string) (expiry_seconds : option Z) : Entry :=
  mkEntry long_url short_url (ctime now) custom_name (expiry_after now expiry_seconds).



(** What is printed for one record: its reminder when the test of the
    loop holds, nothing otherwise. *)
Definition reminder_if_expiring (current_time : Z) (entry : Entry) : list Output :=
  match expiry_timestamp entry with
  | Some t => if is_expiring current_time entry then reminder entry t else []
  | None => []
  end.

(** [entry] with its expiry replaced. *)
Definition set_expiry (entry : Entry) (expiry : option Z) : Entry :=
  mkEntry (long_url entry) (short_url entry) (timestamp entry)
          (custom_name entry) expiry.

(** The second half of the body of the loop of [update_link] at time
    [now]: a new expiry when seconds were given. *)
Definition apply_expiry (entry : Entry) (new_expiry_seconds : option Z) (now : Z)
  : Entry :=
  match new_expiry_seconds with
  | Some seconds => set_expiry entry (Some (now + seconds))
  | None => entry
  end.

(** [entry] pointed at [url], with [short] as its short URL. *)
Definition retarget (entry : Entry) (url short : string) : Entry :=
  mkEntry url short (timestamp entry) (custom_name entry) (expiry_timestamp entry).

(** [pre ++ entry :: post] is the history, and [entry] is the first record
    whose name is [name]. *)
Definition first_match (name : option string) (pre : list Entry) (entry : Entry)
  : Prop :=
  (forall other, In other pre -> Py.eq_opt (custom_name other) name = false) /\
  Py.eq_opt (custom_name entry) name = true.

(** The notice printed when the history file is missing. *)
Definition not_found_notice : Output :=
  Print "[bold red]History not found.[/bold red]".

(** The stored history respects the bound. *)
Definition bounded (w : World) : Prop :=
  (List.length (stored w) <= MAX_HISTORY_SIZE)%nat.

(** A request for the shortening of a valid URL. *)
Definition valid_request (request : string) : Prop :=
  exists long_url,
    request = SHORTENER_API ++ long_url /\ is_valid_url long_url = true.

(** [w'] comes after [w] in a run of the script: input was only consumed
    from the front, the bound on the history was kept if it held, only
    valid requests were sent and the clock did not go back. *)
Definition follows (w w' : World) : Prop :=
  (exists read, stdin w = (read ++ stdin w')%list) /\
  (bounded w -> bounded w') /\
  (exists sent, requests w' = (requests w ++ sent)%list /\ Forall valid_request sent) /\
  clock w <= clock w'.

(** An action whose every run leads to a world that follows. *)
Definition tame {A : Type} (m : M A) : Prop := forall w, follows w (exec m w).

(** [w'] differs from [w] at most in what was printed and what is left to
    read. *)
Definition same_store (w w' : World) : Prop :=
  file w' = file w /\ requests w' = requests w /\ sleeps w' = sleeps w /\
  clock w' = clock w /\ clipboard w' = clipboard w.

(** An action that only prints and reads. *)
Definition quiet {A : Type} (m : M A) : Prop := forall w, same_store w (exec m w).

(** An action that only prints: it leaves the world it found, with output
    added to the console. *)
Definition prints {A : Type} (m : M A) : Prop :=
  forall w, exists out, exec m w = set_console (console w ++ out)%list w.

(** The reminder of [entry] can be printed in full: its texts are valid
    markup and [time.ctime] accepts the expiry. *)
Definition reminder_prints (entry : Entry) (expiry_timestamp : Z) : bool :=
  markup_ok (reminder_link entry) && markup_ok (reminder_long_url entry)
  && match ctime_error expiry_timestamp with
     | Some _ => false
     | None => markup_ok (reminder_expiry expiry_timestamp)
     end.

(** The exceptions that the script can let through: those of [input],
    [int], the float sum and [console.print], and those of [time.ctime]. *)
Definition expected (e : Exception) : Prop :=
  e = EOFError \/ e = ValueError \/ e = OverflowError \/ e = MarkupError \/
  exists t, ctime_error t = Some e.

(** [r] is a value or an expected exception: the fuel did not run out. *)
Definition ends_well {A : Type} (r : Result A) : Prop :=
  match r with
  | Value _ => True
  | Stopped (Raised e) => expected e
  | Stopped OutOfFuel => False
  end.

(** An action that ends well in every world. *)
Definition safe {A : Type} (m : M (Result A)) : Prop :=
  forall w, ends_well (eval m w).

(** ** Properties *)

(** *** Laws of the monad *)

Lemma exec_bind {A B : Type} (m : M A) (k : A -> M B) (w : World) :
  exec (bind m k) w = exec (k (eval m w)) (exec m w).
Proof. unfold exec, eval, bind. destruct (m w). reflexivity. Qed.

Lemma eval_bind {A B : Type} (m : M A) (k : A -> M B) (w : World) :
  eval (bind m k) w = eval (k (eval m w)) (exec m w).
Proof. unfold exec, eval, bind. destruct (m w). reflexivity. Qed.

Lemma run_pair {A : Type} (m : M A) (w : World) : m w = (eval m w, exec m w).
Proof. unfold eval, exec. destruct (m w). reflexivity. Qed.

Lemma bind_result_eval {A B : Type} (m : M (Result A)) (k : A -> M (Result B))
    (w : World) :
  eval (bind_result m k) w =
    match eval m w with
    | Value a => eval (k a) (exec m w)
    | Stopped why => Stopped why
    end.
Proof.
  unfold bind_result, bind, eval, exec. destruct (m w) as [[a | why] w1]; reflexivity.
Qed.

Lemma exec_bind_result {A B : Type} (m : M (Result A)) (k : A -> M (Result B))
    (w : World) :
  exec (bind_result m k) w =
    match eval m w with
    | Value a => exec (k a) (exec m w)
    | Stopped _ => exec m w
    end.
Proof.
  unfold bind_result, bind, eval, exec. destruct (m w) as [[a | why] w1]; reflexivity.
Qed.

Lemma bind_result_value {A B : Type} (m : M (Result A)) (k : A -> M (Result B))
    (a : A) (w w' : World) :
  m w = (Value a, w') -> bind_result m k w = k a w'.
Proof. intros H. unfold bind_result, bind. rewrite H. reflexivity. Qed.

Lemma bind_result_stopped {A B : Type} (m : M (Result A)) (k : A -> M (Result B))
    (why : Stop) (w w' : World) :
  m w = (Stopped why, w') -> bind_result m k w = (Stopped why, w').
Proof. intros H. unfold bind_result, bind. rewrite H. reflexivity. Qed.

Lemma exec_bind_result_ret {A B : Type} (r : Result A) (k : A -> M (Result B))
    (w : World) :
  exec (bind_result (ret r) k) w =
    match r with
    | Value a => exec (k a) w
    | Stopped _ => w
    end.
Proof. unfold bind_result, bind, ret, exec. destruct r; reflexivity. Qed.

Lemma eval_bind_result_ret {A B : Type} (r : Result A) (k : A -> M (Result B))
    (w : World) :
  eval (bind_result (ret r) k) w =
    match r with
    | Value a => eval (k a) w
    | Stopped why => Stopped why
    end.
Proof. unfold bind_result, bind, ret, eval. destruct r; reflexivity. Qed.

Lemma console_print_markup_ok (text : string) (w : World) :
  markup_ok text = true ->
  console_print_markup text w =
    (Value tt, set_console (console w ++ [Print text])%list w).
Proof. intros H. unfold console_print_markup. rewrite H. reflexivity. Qed.

Lemma console_print_markup_raises (text : string) (w : World) :
  markup_ok text = false ->
  console_print_markup text w = (Stopped MarkupError, w).
Proof. intros H. unfold console_print_markup. rewrite H. reflexivity. Qed.

(** *** Actions that only print *)

Lemma set_console_same (w : World) : set_console (console w ++ [])%list w = w.
Proof. destruct w. unfold set_console. cbn. rewrite app_nil_r. reflexivity. Qed.

Lemma prints_ret {A : Type} (a : A) : prints (ret a).
Proof. intros w. exists []. unfold exec, ret. cbn. symmetry. apply set_console_same. Qed.

Lemma prints_raise {A : Type} (e : Exception) : prints (@raise A e).
Proof. apply prints_ret. Qed.

Lemma prints_read {A : Type} (read : World -> A) : prints (fun w => (read w, w)).
Proof. intros w. exists []. unfold exec. cbn. symmetry. apply set_console_same. Qed.

Lemma prints_history_exists : prints history_exists.
Proof. exact (prints_read (fun w => match file w with Some _ => true | None => false end)). Qed.

Lemma prints_json_load : prints json_load.
Proof. exact (prints_read (fun w => match file w with Some h => h | None => [] end)). Qed.

Lemma prints_time_time : prints time_time.
Proof. exact (prints_read clock). Qed.

Lemma prints_bind {A B : Type} (m : M A) (k : A -> M B) :
  prints m -> (forall a, prints (k a)) -> prints (bind m k).
Proof.
  intros Hm Hk w. rewrite exec_bind.
  destruct (Hm w) as (out1 & E1).
  destruct (Hk (eval m w) (exec m w)) as (out2 & E2).
  exists (out1 ++ out2)%list. rewrite E2, E1. unfold set_console. cbn.
  rewrite app_assoc. reflexivity.
Qed.

Lemma prints_bind_result {A B : Type} (m : M (Result A)) (k : A -> M (Result B)) :
  prints m -> (forall a, prints (k a)) -> prints (bind_result m k).
Proof.
  intros Hm Hk. unfold bind_result. apply prints_bind; [exact Hm |].
  intros [a | why]; [apply Hk | apply prints_ret].
Qed.

Lemma prints_lift {A : Type} (m : M A) : prints m -> prints (lift m).
Proof.
  intros Hm. unfold lift. apply prints_bind; [exact Hm | intros a; apply prints_ret].
Qed.

Lemma prints_console_print (o : Output) : prints (console_print o).
Proof. intros w. exists [o]. reflexivity. Qed.

Lemma prints_console_print_markup (text : string) : prints (console_print_markup text).
Proof.
  unfold console_print_markup. destruct (markup_ok text).
  - apply prints_lift, prints_console_print.
  - apply prints_raise.
Qed.

Lemma prints_print_table (rows : list Row) : prints (print_table rows).
Proof.
  unfold print_table. destruct (forallb cells_ok rows).
  - apply prints_lift, prints_console_print.
  - apply prints_raise.
Qed.

Lemma prints_show_history : prints show_history.
Proof.
  unfold show_history. apply prints_bind; [apply prints_history_exists |].
  intros present. destruct (negb present); [apply prints_lift, prints_console_print |].
  apply prints_bind; [apply prints_json_load |].
  intros [| first rest]; [apply prints_lift, prints_console_print |].
  apply prints_bind; [apply prints_time_time |]. intros current_time.
  apply prints_bind_result; [apply prints_ret | apply prints_print_table].
Qed.

Lemma prints_print_reminder (entry : Entry) (t : Z) : prints (print_reminder entry t).
Proof.
  unfold print_reminder.
  apply prints_bind_result; [apply prints_console_print_markup |]. intros _.
  apply prints_bind_result; [apply prints_console_print_markup |]. intros _.
  destruct (ctime_error t); [apply prints_raise |].
  apply prints_bind_result; [apply prints_console_print_markup |]. intros _.
  apply prints_lift, prints_console_print.
Qed.

Lemma prints_remind_loop (current_time : Z) (history : list Entry) :
  prints (remind_loop current_time history).
Proof.
  induction history as [| entry rest IH]; cbn [remind_loop]; [apply prints_ret |].
  apply prints_bind_result; [| intros _; exact IH].
  destruct (expiry_timestamp entry) as [t |]; [| apply prints_ret].
  destruct (Py.truthy_num (Some t) && (t - current_time <=? 3600));
    [apply prints_print_reminder | apply prints_ret].
Qed.

Lemma prints_remind_expiring_links : prints remind_expiring_links.
Proof.
  unfold remind_expiring_links. apply prints_bind; [apply prints_history_exists |].
  intros present. destruct (negb present); [apply prints_lift, prints_console_print |].
  apply prints_bind; [apply prints_json_load |]. intros history.
  apply prints_bind; [apply prints_time_time |]. intros current_time.
  apply prints_remind_loop.
Qed.

Lemma prints_get_file : prints get_file.
Proof.
  unfold get_file. apply prints_bind; [apply prints_history_exists |].
  intros present. destruct present; [| apply prints_lift, prints_console_print].
  apply prints_bind; [exact (prints_read cwd) |]. intros dir.
  apply prints_console_print_markup.
Qed.

(** *** Actions that only print and read *)

Lemma quiet_ret {A : Type} (a : A) : quiet (ret a).
Proof. intros w. repeat split. Qed.

Lemma quiet_bind {A B : Type} (m : M A) (k : A -> M B) :
  quiet m -> (forall a, quiet (k a)) -> quiet (bind m k).
Proof.
  intros Hm Hk w. rewrite exec_bind.
  destruct (Hm w) as (H1 & H2 & H3 & H4 & H5).
  destruct (Hk (eval m w) (exec m w)) as (K1 & K2 & K3 & K4 & K5).
  repeat split; congruence.
Qed.

Lemma quiet_printing {A : Type} (m : M A) : prints m -> quiet m.
Proof. intros H w. destruct (H w) as (out & ->). repeat split. Qed.

Lemma quiet_console_print (o : Output) : quiet (console_print o).
Proof. intros w. repeat split. Qed.

Lemma quiet_input_strip : quiet input_strip.
Proof.
  intros w. unfold exec, input_strip, bind, input.
  destruct (stdin w); repeat split.
Qed.

Lemma quiet_bind_result {A B : Type} (m : M (Result A)) (k : A -> M (Result B)) :
  quiet m -> (forall a, quiet (k a)) -> quiet (bind_result m k).
Proof.
  intros Hm Hk. unfold bind_result. apply quiet_bind; [exact Hm |].
  intros [a | why]; [apply Hk | apply quiet_ret].
Qed.

Lemma quiet_lift {A : Type} (m : M A) : quiet m -> quiet (lift m).
Proof.
  intros Hm. unfold lift. apply quiet_bind; [exact Hm | intros a; apply quiet_ret].
Qed.


(** *** The shortening client *)

Lemma error_text_marked (response : Response) :
  (forall text, response <> Body text) ->
  Py.contains "Error" (response_text response) = true.
Proof.
  destruct response as [text | e | e | e]; intros H; try reflexivity.
  exfalso. apply (H text). reflexivity.
Qed.

Lemma get_short_url_run (api_url long_url : string) (w : World) :
  get_short_url api_url long_url w =
    (response_text (server w (List.length (requests w)) (api_url ++ long_url)),
     set_requests (requests w ++ [(api_url ++ long_url)%string])%list w).
Proof. reflexivity. Qed.

(** An attempt whose answer carries no "Error" ends the loop. *)
Lemma attempt_clean (n : nat) (long_url short_url : string) (w : World) :
  Py.contains "Error"
    (response_text (server w (List.length (requests w)) (SHORTENER_API ++ long_url)))
    = false ->
  shorten_attempts (S n) long_url short_url w =
    (response_text (server w (List.length (requests w)) (SHORTENER_API ++ long_url)),
     set_requests (requests w ++ [(SHORTENER_API ++ long_url)%string])%list w).
Proof.
  intros H. cbn [shorten_attempts]. unfold bind at 1.
  rewrite get_short_url_run, H. reflexivity.
Qed.

(** An attempt whose answer carries "Error" sleeps and goes on. *)
Lemma attempt_error (n : nat) (long_url short_url : string) (w : World) :
  Py.contains "Error"
    (response_text (server w (List.length (requests w)) (SHORTENER_API ++ long_url)))
    = true ->
  shorten_attempts (S n) long_url short_url w =
    shorten_attempts n long_url
      (response_text (server w (List.length (requests w)) (SHORTENER_API ++ long_url)))
      (exec (time_sleep 1)
         (set_requests (requests w ++ [(SHORTENER_API ++ long_url)%string])%list w)).
Proof.
  intros H. cbn [shorten_attempts]. unfold bind at 1.
  rewrite get_short_url_run, H. reflexivity.
Qed.

(** The loop touches the network, the clock and nothing else. *)
Lemma shorten_attempts_frame (n : nat) :
  forall (long_url short_url : string) (w : World),
    let w' := exec (shorten_attempts n long_url short_url) w in
    file w' = file w /\ console w' = console w /\ stdin w' = stdin w /\
    clipboard w' = clipboard w /\ server w' = server w /\ clock w <= clock w'.
Proof.
  induction n as [| n IH]; intros long_url short_url w; cbn zeta.
  - unfold exec; cbn. repeat split; lia.
  - unfold exec in *.
    destruct (Py.contains "Error"
      (response_text (server w (List.length (requests w)) (SHORTENER_API ++ long_url))))
      eqn:E.
    + rewrite (attempt_error _ _ _ _ E).
      match goal with
      | |- context [shorten_attempts n ?u ?s ?w1] =>
          destruct (IH u s w1) as (Hf & Hc & Hi & Hb & Hs & Ht)
      end.
      cbn in *. rewrite Hf, Hc, Hi, Hb, Hs. repeat split; lia.
    + rewrite (attempt_clean _ _ _ _ E). cbn. repeat split; lia.
Qed.

Lemma shorten_url_frame (long_url : string) (w : World) :
  let w' := exec (shorten_url long_url) w in
  file w' = file w /\ console w' = console w /\ stdin w' = stdin w /\
  clipboard w' = clipboard w /\ server w' = server w /\ clock w <= clock w'.
Proof.
  cbn zeta. unfold shorten_url.
  destruct (is_valid_url long_url); cbn [negb].
  - apply shorten_attempts_frame.
  - unfold exec; cbn. repeat split; lia.
Qed.

(** C5.  A string that fails URL validation is answered with the fixed
    message "Invalid URL format." and the world is left as it was: in
    particular no request is sent. *)
Theorem shorten_url_invalid (long_url : string) (w : World) :
  is_valid_url long_url = false ->
  eval (shorten_url long_url) w = "Invalid URL format." /\
  exec (shorten_url long_url) w = w /\
  requests (exec (shorten_url long_url) w) = requests w.
Proof.
  intros H. unfold shorten_url, eval, exec. rewrite H. cbn. auto.
Qed.

(** C4.  When the first two answers carry "Error" and the third does not,
    [shorten_url] on a valid URL sends exactly three requests, sleeps
    exactly twice (once after each failed attempt) and returns the third
    answer. *)
Theorem shorten_url_third_attempt (long_url : string) (w : World) :
  is_valid_url long_url = true ->
  Py.contains "Error"
    (response_text (server w (List.length (requests w))
                      (SHORTENER_API ++ long_url))) = true ->
  Py.contains "Error"
    (response_text (server w (S (List.length (requests w)))
                      (SHORTENER_API ++ long_url))) = true ->
  Py.contains "Error"
    (response_text (server w (S (S (List.length (requests w))))
                      (SHORTENER_API ++ long_url))) = false ->
  eval (shorten_url long_url) w =
    response_text (server w (S (S (List.length (requests w))))
                     (SHORTENER_API ++ long_url)) /\
  requests (exec (shorten_url long_url) w) =
    (requests w ++ [(SHORTENER_API ++ long_url)%string;
                    (SHORTENER_API ++ long_url)%string;
                    (SHORTENER_API ++ long_url)%string])%list /\
  sleeps (exec (shorten_url long_url) w) = (sleeps w ++ [1; 1])%list.
Proof.
  intros Hv H1 H2 H3. unfold shorten_url, eval, exec. rewrite Hv. cbn [negb].
  rewrite (attempt_error _ _ _ _ H1).
  rewrite attempt_error;
    cbn [exec time_sleep snd server requests set_requests set_sleeps set_clock];
    rewrite ?length_app, ?Nat.add_1_r; cbn [List.length Nat.add]; [| exact H2].
  rewrite attempt_clean;
    cbn [exec time_sleep snd server requests set_requests set_sleeps set_clock];
    rewrite ?length_app; cbn [List.length];
    replace (List.length (requests w) + 1 + 1)%nat
      with (S (S (List.length (requests w)))) by lia; [| exact H3].
  cbn. rewrite <- !app_assoc. cbn. auto.
Qed.

(** When all three answers carry "Error", [shorten_url] returns the third
    one after three requests and three sleeps: the loop also sleeps after
    its last attempt. *)
Lemma shorten_url_all_fail (long_url : string) (w : World) :
  is_valid_url long_url = true ->
  (forall k, (k < 3)%nat ->
     Py.contains "Error"
       (response_text (server w (k + List.length (requests w))
                         (SHORTENER_API ++ long_url))) = true) ->
  eval (shorten_url long_url) w =
    response_text (server w (2 + List.length (requests w))
                     (SHORTENER_API ++ long_url)) /\
  List.length (requests (exec (shorten_url long_url) w)) =
    (3 + List.length (requests w))%nat /\
  sleeps (exec (shorten_url long_url) w) = (sleeps w ++ [1; 1; 1])%list.
Proof.
  intros Hv H. unfold shorten_url, eval, exec. rewrite Hv. cbn [negb].
  rewrite attempt_error by (apply (H 0%nat); lia).
  rewrite attempt_error;
    cbn [exec time_sleep snd server requests set_requests set_sleeps set_clock];
    rewrite ?length_app, ?Nat.add_1_r; cbn [List.length Nat.add];
    [| apply (H 1%nat); lia].
  rewrite attempt_error;
    cbn [exec time_sleep snd server requests set_requests set_sleeps set_clock];
    rewrite ?length_app; cbn [List.length];
    replace (List.length (requests w) + 1 + 1)%nat
      with (2 + List.length (requests w))%nat by lia;
    [| apply (H 2%nat); lia].
  cbn. rewrite !length_app. cbn. rewrite <- !app_assoc. cbn.
  repeat split; lia.
Qed.

(** Every call sleeps at most three times. *)
Lemma shorten_attempts_sleeps (n : nat) :
  forall (long_url short_url : string) (w : World),
    exists extra,
      sleeps (exec (shorten_attempts n long_url short_url) w)
        = (sleeps w ++ extra)%list /\
      (List.length extra <= n)%nat /\ Forall (fun s => s = 1) extra.
Proof.
  induction n as [| n IH]; intros long_url short_url w.
  - exists []. unfold exec; cbn. rewrite app_nil_r. auto.
  - unfold exec in *.
    destruct (Py.contains "Error"
      (response_text (server w (List.length (requests w)) (SHORTENER_API ++ long_url))))
      eqn:E.
    + rewrite (attempt_error _ _ _ _ E).
      match goal with
      | |- context [shorten_attempts n ?u ?s ?w1] =>
          destruct (IH u s w1) as (extra & Hs & Hl & Ha)
      end.
      exists (1 :: extra). rewrite Hs. cbn. rewrite <- app_assoc. cbn.
      repeat split; [lia | constructor; auto].
    + rewrite (attempt_clean _ _ _ _ E). exists []. cbn.
      rewrite app_nil_r. repeat split; [lia | constructor].
Qed.

(** *** The bounded history *)

Lemma last_n_length {A : Type} (n : nat) (l : list A) :
  List.length (Py.last_n n l) = Nat.min n (List.length l).
Proof. unfold Py.last_n. rewrite length_skipn. lia. Qed.

Lemma last_n_short {A : Type} (n : nat) (l : list A) :
  (List.length l <= n)%nat -> Py.last_n n l = l.
Proof.
  intros H. unfold Py.last_n.
  replace (List.length l - n)%nat with 0%nat by lia. reflexivity.
Qed.




Lemma bounded_append_last_n (history : list Entry) (entry : Entry) :
  bounded_append history entry = Py.last_n MAX_HISTORY_SIZE (history ++ [entry]).
Proof.
  unfold bounded_append.
  destruct (MAX_HISTORY_SIZE <? List.length (history ++ [entry]))%nat eqn:E.
  - reflexivity.
  - apply Nat.ltb_ge in E. symmetry. apply last_n_short. exact E.
Qed.

Lemma save_to_history_run (long_url short_url : string)
    (custom_name : option string) (expiry_seconds : option Z) (w : World) :
  save_to_history long_url short_url custom_name expiry_seconds w =
    (tt, set_file (Some (bounded_append (stored w)
                           (new_entry (clock w) long_url short_url
                                      custom_name expiry_seconds))) w).
Proof.
  unfold save_to_history, new_entry, expiry_after, stored, bind, history_exists,
    json_load, json_dump, time_time, ret.
  destruct w as [[history |] now srv reqs slept out keys clip dir];
    destruct expiry_seconds as [seconds |]; cbn; try reflexivity;
    destruct (Z.eqb_spec seconds 0); reflexivity.
Qed.




(** *** Pruning *)

Lemma is_expired_iff (now : Z) (entry : Entry) :
  is_expired now entry = true <->
  exists t, expiry_timestamp entry = Some t /\ t <> 0 /\ t < now.
Proof.
  unfold is_expired, Py.truthy_num.
  destruct (expiry_timestamp entry) as [t |].
  - rewrite andb_true_iff, negb_true_iff, Z.eqb_neq, Z.ltb_lt. split.
    + intros [H0 Hlt]. exists t. auto.
    + intros (t' & Heq & H0 & Hlt). injection Heq as <-. auto.
  - split; [discriminate | intros (t & Heq & _); discriminate].
Qed.

Lemma filter_subsequence {A : Type} (keep : A -> bool) (l : list A) :
  Subsequence (filter keep l) l.
Proof.
  induction l as [| x l IH]; cbn.
  - constructor.
  - destruct (keep x); constructor; exact IH.
Qed.

Lemma filter_filter_same {A : Type} (keep : A -> bool) (l : list A) :
  filter keep (filter keep l) = filter keep l.
Proof.
  induction l as [| x l IH]; cbn; [reflexivity |].
  destruct (keep x) eqn:E; cbn; rewrite ?E, IH; reflexivity.
Qed.

Lemma delete_expired_links_run (w : World) (history : list Entry) :
  file w = Some history ->
  delete_expired_links w =
    (tt, set_file (Some (filter (fun entry => negb (is_expired (clock w) entry))
                                history)) w).
Proof.
  intros H. destruct w as [stored_file now srv reqs slept out keys clip dir].
  cbn in H. subst stored_file. reflexivity.
Qed.

(** Without a history file, pruning only prints a notice. *)
Lemma delete_expired_links_no_file (w : World) :
  file w = None -> file (exec delete_expired_links w) = None.
Proof.
  intros H. destruct w as [stored_file now srv reqs slept out keys clip dir].
  cbn in H. subst stored_file. reflexivity.
Qed.

(** C3, amended.  [delete_expired_links] removes exactly the records whose
    [expiry_timestamp] is set, is not zero and is strictly earlier than
    the current time; the records that remain keep their order; and
    pruning a second time at the same time changes nothing. *)
Theorem delete_expired_links_prunes (w : World) (history : list Entry) :
  file w = Some history ->
  exists kept,
    file (exec delete_expired_links w) = Some kept /\
    kept = filter (fun entry => negb (is_expired (clock w) entry)) history /\
    Subsequence kept history /\
    (forall entry, In entry history ->
       (In entry kept <->
        ~ exists t, expiry_timestamp entry = Some t /\ t <> 0 /\ t < clock w)) /\
    file (exec delete_expired_links (exec delete_expired_links w)) = Some kept.
Proof.
  intros H. unfold exec. rewrite (delete_expired_links_run w history H).
  eexists. split; [reflexivity |]. split; [reflexivity |].
  split; [apply filter_subsequence |]. split.
  - intros entry Hin. rewrite filter_In, <- is_expired_iff, negb_true_iff.
    destruct (is_expired (clock w) entry); split.
    + intros [_ Hf]. discriminate Hf.
    + intros Hn. exfalso. apply Hn. reflexivity.
    + intros _ Ht. discriminate Ht.
    + intros _. split; [exact Hin | reflexivity].
  - cbn [snd]. erewrite delete_expired_links_run by reflexivity.
    cbn. rewrite filter_filter_same. reflexivity.
Qed.

(** *** Reminders *)

Lemma print_reminder_run (entry : Entry) (t : Z) (w : World) :
  exists printed unprinted,
    exec (print_reminder entry t) w = set_console (console w ++ printed)%list w /\
    reminder entry t = (printed ++ unprinted)%list /\
    (eval (print_reminder entry t) w = Value tt -> unprinted = []) /\
    (reminder_prints entry t = true -> eval (print_reminder entry t) w = Value tt).
Proof.
  unfold print_reminder, reminder_prints, reminder, eval, exec.
  destruct (markup_ok (reminder_link entry)) eqn:E1.
  - rewrite (bind_result_value _ _ tt _ _ (console_print_markup_ok _ w E1)).
    destruct (markup_ok (reminder_long_url entry)) eqn:E2.
    + rewrite (bind_result_value _ _ tt _ _ (console_print_markup_ok _ _ E2)).
      destruct (ctime_error t) as [e |].
      * exists [Print (reminder_link entry); Print (reminder_long_url entry)].
        eexists. unfold eval, exec, raise, ret. cbn [fst snd console set_console].
        rewrite <- app_assoc. split; [reflexivity |]. split; [reflexivity |].
        split; discriminate.
      * destruct (markup_ok (reminder_expiry t)) eqn:E3.
        -- rewrite (bind_result_value _ _ tt _ _ (console_print_markup_ok _ _ E3)).
           exists [Print (reminder_link entry); Print (reminder_long_url entry);
                   Print (reminder_expiry t); Print (Py.repeat_str "-" 40)], [].
           unfold eval, exec, lift, bind, console_print, ret.
           cbn [fst snd console set_console]. rewrite <- !app_assoc.
           repeat split; reflexivity.
        -- rewrite (bind_result_stopped _ _ _ _ _ (console_print_markup_raises _ _ E3)).
           exists [Print (reminder_link entry); Print (reminder_long_url entry)].
           eexists. unfold eval, exec. cbn [fst snd console set_console].
           rewrite <- app_assoc. split; [reflexivity |]. split; [reflexivity |].
           split; discriminate.
    + rewrite (bind_result_stopped _ _ _ _ _ (console_print_markup_raises _ _ E2)).
      exists [Print (reminder_link entry)]. eexists.
      unfold eval, exec. cbn [fst snd console set_console].
      split; [reflexivity |]. split; [reflexivity |]. split; discriminate.
  - rewrite (bind_result_stopped _ _ _ _ _ (console_print_markup_raises _ w E1)).
    exists []. eexists. unfold eval, exec. cbn [fst snd].
    split; [symmetry; apply set_console_same |]. split; [reflexivity |].
    split; discriminate.
Qed.

(** What the loop prints is a beginning of the reminders of the records
    whose expiry is set, not zero and at most one hour ahead (how far it
    lies behind is not tested): all of them when nothing raises. *)
Lemma remind_loop_run (current_time : Z) (history : list Entry) :
  forall w,
    exists printed unprinted,
      exec (remind_loop current_time history) w
        = set_console (console w ++ printed)%list w /\
      flat_map (reminder_if_expiring current_time) history
        = (printed ++ unprinted)%list /\
      (eval (remind_loop current_time history) w = Value tt -> unprinted = []) /\
      ((forall entry t, In entry history -> expiry_timestamp entry = Some t ->
          is_expiring current_time entry = true -> reminder_prints entry t = true) ->
       eval (remind_loop current_time history) w = Value tt).
Proof.
  induction history as [| entry rest IH]; intros w.
  - exists [], []. unfold eval, exec. cbn.
    repeat split. symmetry. apply set_console_same.
  - cbn [remind_loop flat_map]. rewrite exec_bind_result, bind_result_eval.
    unfold reminder_if_expiring at 1, is_expiring at 1.
    destruct (expiry_timestamp entry) as [t |] eqn:Ht.
    + destruct (Py.truthy_num (Some t) && (t - current_time <=? 3600)) eqn:Hdue.
      * destruct (print_reminder_run entry t w) as (p1 & u1 & Hexec & Hall & Hdone & Hok).
        destruct (eval (print_reminder entry t) w) as [[] | why] eqn:Hev.
        -- rewrite (Hdone eq_refl) in Hall. rewrite Hexec.
           destruct (IH (set_console (console w ++ p1)%list w))
             as (p2 & u2 & Hexec2 & Hall2 & Hdone2 & Hok2).
           exists (p1 ++ p2)%list, u2. rewrite Hexec2, Hall, Hall2.
           unfold set_console. cbn. rewrite app_nil_r, !app_assoc.
           split; [reflexivity |]. split; [reflexivity |]. split; [exact Hdone2 |].
           intros Hgood. apply Hok2. intros e t' Hin. apply Hgood. right. exact Hin.
        -- exists p1, (u1 ++ flat_map (reminder_if_expiring current_time) rest)%list.
           rewrite Hall, <- app_assoc.
           split; [exact Hexec |]. split; [reflexivity |]. split; [discriminate |].
           intros Hgood. exfalso.
           assert (Hv : Stopped why = Value tt); [| discriminate Hv].
           apply Hok. apply (Hgood entry t); [left; reflexivity | exact Ht |].
           unfold is_expiring. rewrite Ht. exact Hdue.
      * unfold eval at 1 2, exec at 2, ret. cbn [fst snd].
        destruct (IH w) as (p2 & u2 & Hexec2 & Hall2 & Hdone2 & Hok2).
        exists p2, u2. cbn [app].
        split; [exact Hexec2 |]. split; [exact Hall2 |]. split; [exact Hdone2 |].
        intros Hgood. apply Hok2. intros e t' Hin. apply Hgood. right. exact Hin.
    + unfold eval at 1 2, exec at 2, ret. cbn [fst snd].
      destruct (IH w) as (p2 & u2 & Hexec2 & Hall2 & Hdone2 & Hok2).
      exists p2, u2. cbn [app].
      split; [exact Hexec2 |]. split; [exact Hall2 |]. split; [exact Hdone2 |].
      intros Hgood. apply Hok2. intros e t' Hin. apply Hgood. right. exact Hin.
Qed.

Lemma remind_expiring_links_run (w : World) (history : list Entry) :
  file w = Some history ->
  remind_expiring_links w = remind_loop (clock w) history w.
Proof.
  intros H. destruct w as [stored_file now srv reqs slept out keys clip dir].
  cbn in H. subst stored_file. reflexivity.
Qed.

(** *** Updating a record *)

Lemma update_entry_invalid (entry : Entry) (url : string)
    (new_expiry_seconds : option Z) (w : World) :
  Py.truthy url = true -> is_valid_url url = false ->
  update_entry entry (Some url) new_expiry_seconds w =
    (None, exec (console_print (Print "[bold red]New URL is not valid.[/bold red]")) w).
Proof.
  intros Ht Hv. unfold update_entry. rewrite Ht, Hv. reflexivity.
Qed.

Lemma update_entry_keep (entry : Entry) (new_long_url : option string)
    (new_expiry_seconds : option Z) (w : World) :
  Py.truthy_opt new_long_url = false ->
  update_entry entry new_long_url new_expiry_seconds w =
    (Some (apply_expiry entry new_expiry_seconds (clock w)), w).
Proof.
  intros Ht. unfold update_entry.
  destruct new_long_url as [url |]; cbn in Ht; [rewrite Ht |];
    destruct new_expiry_seconds; reflexivity.
Qed.

Lemma update_entry_valid (entry : Entry) (url : string)
    (new_expiry_seconds : option Z) (w : World) :
  Py.truthy url = true -> is_valid_url url = true ->
  update_entry entry (Some url) new_expiry_seconds w =
    (Some (apply_expiry (retarget entry url (eval (shorten_url url) w))
                        new_expiry_seconds (clock (exec (shorten_url url) w))),
     exec (shorten_url url) w).
Proof.
  intros Ht Hv. unfold update_entry, eval, exec. rewrite Ht, Hv.
  unfold bind at 1 2. destruct (shorten_url url w) as [short w1].
  destruct new_expiry_seconds; reflexivity.
Qed.

Lemma update_scan_not_found (name new_long_url : option string)
    (new_expiry_seconds : option Z) (history : list Entry) :
  (forall entry, In entry history -> Py.eq_opt (custom_name entry) name = false) ->
  forall w,
    update_scan history name new_long_url new_expiry_seconds w = (NotFound, w).
Proof.
  induction history as [| entry rest IH]; intros H w; [reflexivity |].
  cbn [update_scan]. rewrite (H entry) by (left; reflexivity).
  unfold bind. rewrite IH by (intros e He; apply H; right; exact He).
  reflexivity.
Qed.

Lemma update_scan_first_match (name new_long_url : option string)
    (new_expiry_seconds : option Z) (entry : Entry) (post pre : list Entry) :
  first_match name pre entry ->
  forall w,
    update_scan (pre ++ entry :: post) name new_long_url new_expiry_seconds w =
      (match eval (update_entry entry new_long_url new_expiry_seconds) w with
       | Some entry' => Updated (pre ++ entry' :: post)
       | None => Invalid
       end,
       exec (update_entry entry new_long_url new_expiry_seconds) w).
Proof.
  unfold first_match, eval, exec.
  induction pre as [| other pre IH]; intros [Hpre Hm] w.
  - cbn [app update_scan]. rewrite Hm. unfold bind.
    destruct (update_entry entry new_long_url new_expiry_seconds w) as [[e' |] w'];
      reflexivity.
  - cbn [app update_scan]. rewrite (Hpre other) by (left; reflexivity).
    unfold bind. rewrite IH
      by (split; [intros e He; apply Hpre; right; exact He | exact Hm]).
    destruct (update_entry entry new_long_url new_expiry_seconds w) as [[e' |] w'];
      reflexivity.
Qed.

(** With a non-empty URL that is not valid the loop changes no record. *)
Lemma update_scan_invalid_url (name : option string) (url : string)
    (new_expiry_seconds : option Z) (history : list Entry) :
  Py.truthy url = true -> is_valid_url url = false ->
  forall w,
    update_scan history name (Some url) new_expiry_seconds w = (NotFound, w) \/
    update_scan history name (Some url) new_expiry_seconds w =
      (Invalid,
       exec (console_print (Print "[bold red]New URL is not valid.[/bold red]")) w).
Proof.
  intros Ht Hv. induction history as [| entry rest IH]; intros w.
  - left. reflexivity.
  - cbn [update_scan]. destruct (Py.eq_opt (custom_name entry) name).
    + right. unfold bind. rewrite update_entry_invalid by assumption. reflexivity.
    + unfold bind. destruct (IH w) as [-> | ->]; [left | right]; reflexivity.
Qed.

Lemma update_link_run (name new_long_url : option string)
    (new_expiry_seconds : option Z) (w : World) (history : list Entry) :
  file w = Some history ->
  update_link name new_long_url new_expiry_seconds w =
    match update_scan history name new_long_url new_expiry_seconds w with
    | (Invalid, w') => (tt, w')
    | (Updated history', w') =>
        (tt, exec (console_print
                     (Print "[bold green]Link updated successfully.[/bold green]"))
                  (set_file (Some history') w'))
    | (NotFound, w') =>
        (tt, exec (console_print (Print "[bold red]Link not found.[/bold red]")) w')
    end.
Proof.
  intros H. destruct w as [stored_file now srv reqs slept out keys clip dir].
  cbn in H. subst stored_file.
  unfold update_link, bind, history_exists, json_load. cbn [file negb].
  match goal with |- context [update_scan ?h ?n ?u ?s ?w] =>
    destruct (update_scan h n u s w) as [[history' | |] w'] end; reflexivity.
Qed.

Lemma update_link_no_file (name new_long_url : option string)
    (new_expiry_seconds : option Z) (w : World) :
  file w = None ->
  update_link name new_long_url new_expiry_seconds w =
    (tt, exec (console_print (Print "[bold red]History not found.[/bold red]")) w).
Proof.
  intros H. destruct w as [stored_file now srv reqs slept out keys clip dir].
  cbn in H. subst stored_file. reflexivity.
Qed.

Lemma truthy_nonempty (s : string) : s <> EmptyString -> Py.truthy s = true.
Proof. destruct s; [intros H; exfalso; apply H |]; reflexivity. Qed.

(** C6, amended.  [update_link] leaves the stored history as it was, and
    sends no request, when no record bears the given name, and when the
    new long URL is a non-empty string that fails validation (whether or
    not a new expiry was given). *)
Theorem update_link_failure_keeps_history (name new_long_url : option string)
    (new_expiry_seconds : option Z) (w : World) :
  (forall entry, In entry (stored w) -> Py.eq_opt (custom_name entry) name = false) \/
  (exists url, new_long_url = Some url /\ url <> EmptyString /\ is_valid_url url = false) ->
  file (exec (update_link name new_long_url new_expiry_seconds) w) = file w /\
  requests (exec (update_link name new_long_url new_expiry_seconds) w) = requests w.
Proof.
  intros H. unfold exec. destruct (file w) as [history |] eqn:Hf.
  - rewrite (update_link_run _ _ _ _ _ Hf). destruct H as [H | (url & -> & Hne & Hv)].
    + unfold stored in H. rewrite Hf in H.
      rewrite (update_scan_not_found _ _ _ _ H). cbn. auto.
    + destruct (update_scan_invalid_url name url new_expiry_seconds history
                  (truthy_nonempty _ Hne) Hv w) as [-> | ->]; cbn; auto.
  - rewrite (update_link_no_file _ _ _ _ Hf). cbn. auto.
Qed.

(** *** The flows that save *)

Lemma save_to_history_call_run (long_url short_url : string)
    (name : option string) (expiry_seconds : option Z) (w : World) :
  save_to_history_call long_url short_url name expiry_seconds w =
    if expiry_overflows expiry_seconds then (Stopped OverflowError, w)
    else (Value tt, exec (save_to_history long_url short_url name expiry_seconds) w).
Proof.
  unfold save_to_history_call, exec, lift, bind, raise, ret.
  destruct (expiry_overflows expiry_seconds); [reflexivity |].
  destruct (save_to_history long_url short_url name expiry_seconds w) as [[] w1].
  reflexivity.
Qed.

(** Choice 1 after its questions: the result is shown, unless the console
    refuses the line, and a clean result is then saved, unless the expiry
    is too large. *)
Lemma shorten_and_save_run (long_url : string) (name : option string)
    (expiry_seconds : option Z) (w : World) :
  shorten_and_save long_url name expiry_seconds w =
    if markup_ok (shortened_line (eval (shorten_url long_url) w)) then
      if Py.contains "Error" (eval (shorten_url long_url) w) then
        (Value tt,
         exec (console_print (Print (shortened_line (eval (shorten_url long_url) w))))
              (exec (shorten_url long_url) w))
      else if expiry_overflows expiry_seconds then
        (Stopped OverflowError,
         exec (console_print (Print (shortened_line (eval (shorten_url long_url) w))))
              (exec (shorten_url long_url) w))
      else
        (Value tt,
         exec (save_to_history long_url (eval (shorten_url long_url) w) name
                               expiry_seconds)
              (exec (console_print
                       (Print (shortened_line (eval (shorten_url long_url) w))))
                    (exec (shorten_url long_url) w)))
    else (Stopped MarkupError, exec (shorten_url long_url) w).
Proof.
  unfold shorten_and_save, eval, exec. unfold bind at 1.
  destruct (shorten_url long_url w) as [short w1]. cbn [fst snd].
  destruct (markup_ok (shortened_line short)) eqn:Hm.
  - rewrite (bind_result_value _ _ tt _ _ (console_print_markup_ok _ w1 Hm)).
    destruct (Py.contains "Error" short); cbn [negb]; [reflexivity |].
    rewrite save_to_history_call_run.
    destruct (expiry_overflows expiry_seconds); reflexivity.
  - rewrite (bind_result_stopped _ _ _ _ _ (console_print_markup_raises _ w1 Hm)).
    reflexivity.
Qed.

Lemma shorten_and_save_file (long_url : string) (name : option string)
    (expiry_seconds : option Z) (w : World) :
  file (exec (shorten_and_save long_url name expiry_seconds) w) =
    if Py.contains "Error" (eval (shorten_url long_url) w)
    then file w
    else if markup_ok (shortened_line (eval (shorten_url long_url) w))
            && negb (expiry_overflows expiry_seconds)
    then Some (bounded_append (stored w)
                 (new_entry (clock (exec (shorten_url long_url) w)) long_url
                            (eval (shorten_url long_url) w) name expiry_seconds))
    else file w.
Proof.
  destruct (shorten_url_frame long_url w) as (Hf & _).
  unfold exec at 1. rewrite shorten_and_save_run.
  destruct (markup_ok (shortened_line (eval (shorten_url long_url) w)));
    destruct (Py.contains "Error" (eval (shorten_url long_url) w));
    destruct (expiry_overflows expiry_seconds); cbn [snd andb negb];
    try exact Hf.
  unfold exec at 1. rewrite save_to_history_run. cbn [snd file set_file].
  unfold stored, exec, console_print. cbn [snd file set_console clock].
  unfold exec in Hf. rewrite Hf. reflexivity.
Qed.

Lemma shorten_url_from_clipboard_run (w : World) :
  is_valid_url (clipboard w) = true ->
  shorten_url_from_clipboard w = shorten_and_save (clipboard w) None None w.
Proof.
  intros H. unfold shorten_url_from_clipboard, shorten_and_save, pyperclip_paste.
  unfold bind at 1. rewrite H. reflexivity.
Qed.

Lemma input_strip_run (line : string) (rest : list string) (w : World) :
  stdin w = line :: rest ->
  input_strip w = (Value (Py.strip line), set_stdin rest w).
Proof.
  intros H. unfold input_strip, bind, input. rewrite H. reflexivity.
Qed.

Lemma input_strip_eof (w : World) :
  stdin w = [] -> input_strip w = (Stopped EOFError, w).
Proof. intros H. unfold input_strip, bind, input. rewrite H. reflexivity. Qed.

Lemma input_strip_store (w : World) :
  file (exec input_strip w) = file w /\ stored (exec input_strip w) = stored w.
Proof.
  destruct (quiet_input_strip w) as (Hf & _). unfold stored. rewrite Hf. auto.
Qed.

Lemma ask_long_url_run (fuel : nat) (line : string) (rest : list string)
    (w : World) :
  stdin w = line :: rest ->
  Py.truthy (Py.strip line) = true ->
  is_valid_url (Py.strip line) = true ->
  ask_long_url (S fuel) w = (Value (Py.strip line), set_stdin rest w).
Proof.
  intros Hin Ht Hv. cbn [ask_long_url].
  rewrite (bind_result_value _ _ _ _ _ (input_strip_run _ _ _ Hin)).
  rewrite Ht, Hv. reflexivity.
Qed.




(** *** What an update stores *)

Lemma update_link_first_match_valid (name : option string) (url : string)
    (new_expiry_seconds : option Z) (pre post : list Entry) (entry : Entry)
    (w : World) :
  file w = Some (pre ++ entry :: post)%list ->
  first_match name pre entry ->
  Py.truthy url = true -> is_valid_url url = true ->
  update_link name (Some url) new_expiry_seconds w =
    (tt, exec (console_print
                 (Print "[bold green]Link updated successfully.[/bold green]"))
           (set_file
              (Some (pre ++ apply_expiry
                              (retarget entry url (eval (shorten_url url) w))
                              new_expiry_seconds
                              (clock (exec (shorten_url url) w)) :: post)%list)
              (exec (shorten_url url) w))).
Proof.
  intros Hf Hm Ht Hv. rewrite (update_link_run _ _ _ _ _ Hf).
  rewrite (update_scan_first_match _ _ _ _ _ _ Hm).
  unfold eval, exec.
  rewrite (update_entry_valid _ _ _ _ Ht Hv). reflexivity.
Qed.

Lemma update_link_first_match_keep (name new_long_url : option string)
    (new_expiry_seconds : option Z) (pre post : list Entry) (entry : Entry)
    (w : World) :
  file w = Some (pre ++ entry :: post)%list ->
  first_match name pre entry ->
  Py.truthy_opt new_long_url = false ->
  update_link name new_long_url new_expiry_seconds w =
    (tt, exec (console_print
                 (Print "[bold green]Link updated successfully.[/bold green]"))
           (set_file
              (Some (pre ++ apply_expiry entry new_expiry_seconds (clock w)
                         :: post)%list)
              w)).
Proof.
  intros Hf Hm Ht. rewrite (update_link_run _ _ _ _ _ Hf).
  rewrite (update_scan_first_match _ _ _ _ _ _ Hm).
  unfold eval, exec.
  rewrite (update_entry_keep _ _ _ _ Ht). reflexivity.
Qed.



(** C10.  [save_to_history] with [expiry_seconds = 0] stores a record
    whose [expiry_timestamp] is [None], which no pruning ever removes;
    [update_link] with [new_expiry_seconds = 0] sets the
    [expiry_timestamp] of the record it finds to the current time (the
    time at which the call ends, which is the time of the call when no new
    URL is given), so the record counts as expired at every later time. *)
Theorem zero_expiry_asymmetry (w_save w_update : World)
    (long short : string) (custom name new_long_url : option string)
    (pre post : list Entry) (entry : Entry) :
  file w_update = Some (pre ++ entry :: post)%list ->
  first_match name pre entry ->
  (forall url, new_long_url = Some url -> url <> EmptyString -> is_valid_url url = true) ->
  (file (exec (save_to_history long short custom (Some 0)) w_save) =
     Some (bounded_append (stored w_save)
             (mkEntry long short (ctime (clock w_save)) custom None)) /\
   forall now,
     is_expired now (mkEntry long short (ctime (clock w_save)) custom None) = false) /\
  (exists entry',
     file (exec (update_link name new_long_url (Some 0)) w_update) =
       Some (pre ++ entry' :: post)%list /\
     expiry_timestamp entry' =
       Some (clock (exec (update_link name new_long_url (Some 0)) w_update)) /\
     (Py.truthy_opt new_long_url = false ->
      entry' = set_expiry entry (Some (clock w_update))) /\
     forall now,
       clock (exec (update_link name new_long_url (Some 0)) w_update) <> 0 ->
       clock (exec (update_link name new_long_url (Some 0)) w_update) < now ->
       is_expired now entry' = true).
Proof.
  intros Hf Hm Hurl. split.
  - split; [| reflexivity].
    unfold exec. rewrite save_to_history_run. reflexivity.
  - assert (Hlater : forall t now e, expiry_timestamp e = Some t ->
                       t <> 0 -> t < now -> is_expired now e = true).
    { intros t now e He H0 Hlt. apply is_expired_iff. exists t. auto. }
    destruct (Py.truthy_opt new_long_url) eqn:Ht.
    + destruct new_long_url as [url |]; [| discriminate Ht]. cbn in Ht.
      assert (Hv : is_valid_url url = true).
      { apply Hurl; [reflexivity |]. intros ->. discriminate Ht. }
      unfold exec.
      rewrite (update_link_first_match_valid _ _ _ _ _ _ _ Hf Hm Ht Hv).
      eexists. split; [reflexivity |]. cbn -[is_expired]. rewrite Z.add_0_r.
      split; [reflexivity |]. split; [discriminate |].
      intros now H0 Hlt. eapply Hlater; [reflexivity | exact H0 | exact Hlt].
    + unfold exec.
      rewrite (update_link_first_match_keep _ _ _ _ _ _ _ Hf Hm Ht).
      eexists. split; [reflexivity |]. cbn -[is_expired]. rewrite Z.add_0_r.
      split; [reflexivity |]. split; [reflexivity |].
      intros now H0 Hlt. eapply Hlater; [reflexivity | exact H0 | exact Hlt].
Qed.

(** ** Further properties *)

(** *** The shortening client, continued *)

(** X1.  Whenever the request raises ([HTTPError], [ConnectionError] or any
    other [RequestException]), [get_short_url] returns a text that contains
    "Error", after exactly one request to the API URL followed by the raw
    long URL; nothing else in the world changes. *)
Theorem get_short_url_failure_marked (api_url long_url : string) (w : World) :
  (forall text,
     server w (List.length (requests w)) (api_url ++ long_url) <> Body text) ->
  Py.contains "Error" (eval (get_short_url api_url long_url) w) = true /\
  exec (get_short_url api_url long_url) w =
    set_requests (requests w ++ [(api_url ++ long_url)%string])%list w.
Proof.
  intros H. unfold eval, exec. rewrite get_short_url_run. cbn [fst snd].
  split; [apply error_text_marked; exact H | reflexivity].
Qed.

(** X2.  On a valid URL whose first answer does not contain "Error",
    [shorten_url] returns that answer after a single request: it does not
    sleep, and the clock, the history and the console are as before. *)
Theorem shorten_url_first_attempt (long_url : string) (w : World) :
  is_valid_url long_url = true ->
  Py.contains "Error"
    (response_text (server w (List.length (requests w))
                      (SHORTENER_API ++ long_url))) = false ->
  eval (shorten_url long_url) w =
    response_text (server w (List.length (requests w)) (SHORTENER_API ++ long_url)) /\
  exec (shorten_url long_url) w =
    set_requests (requests w ++ [(SHORTENER_API ++ long_url)%string])%list w.
Proof.
  intros Hv Hc. unfold shorten_url, eval, exec. rewrite Hv. cbn [negb].
  rewrite (attempt_clean _ _ _ _ Hc). auto.
Qed.

Lemma shorten_attempts_count (n : nat) :
  forall (long_url short_url : string) (w : World),
  exists k,
    (1 <= k <= S n)%nat /\
    requests (exec (shorten_attempts (S n) long_url short_url) w) =
      (requests w ++ repeat (SHORTENER_API ++ long_url)%string k)%list /\
    (Py.contains "Error" (eval (shorten_attempts (S n) long_url short_url) w) = true ->
     k = S n /\
     sleeps (exec (shorten_attempts (S n) long_url short_url) w) =
       (sleeps w ++ repeat 1 (S n))%list) /\
    (Py.contains "Error" (eval (shorten_attempts (S n) long_url short_url) w) = false ->
     sleeps (exec (shorten_attempts (S n) long_url short_url) w) =
       (sleeps w ++ repeat 1 (k - 1))%list).
Proof.
  induction n as [| n IH]; intros long_url short_url w; unfold eval, exec in *;
    destruct (Py.contains "Error"
      (response_text (server w (List.length (requests w)) (SHORTENER_API ++ long_url))))
      eqn:E.
  - rewrite (attempt_error _ _ _ _ E). exists 1%nat.
    cbn [shorten_attempts ret fst snd exec time_sleep requests sleeps
         set_requests set_sleeps set_clock repeat].
    rewrite E. repeat split; try lia; intros; discriminate.
  - rewrite (attempt_clean _ _ _ _ E). exists 1%nat.
    cbn [fst snd requests sleeps set_requests repeat Nat.sub].
    rewrite E, app_nil_r.
    repeat split; try lia; intros; discriminate.
  - rewrite (attempt_error _ _ _ _ E).
    match goal with
    | |- context [shorten_attempts (S n) ?u ?s ?w1] =>
        destruct (IH u s w1) as (k & Hk & Hreq & Herr & Hok)
    end.
    exists (S k). split; [lia |]. split.
    + rewrite Hreq.
      cbn [exec time_sleep snd requests set_sleeps set_clock set_requests repeat].
      rewrite <- app_assoc. reflexivity.
    + split.
      * intros Hc. destruct (Herr Hc) as [-> Hs]. split; [reflexivity |].
        rewrite Hs.
        cbn [exec time_sleep snd sleeps set_sleeps set_clock set_requests repeat].
        rewrite <- app_assoc. reflexivity.
      * intros Hc. rewrite (Hok Hc). destruct k as [| k']; [lia |].
        replace (S (S k') - 1)%nat with (S k') by lia.
        replace (S k' - 1)%nat with k' by lia.
        cbn [exec time_sleep snd sleeps set_sleeps set_clock set_requests repeat].
        rewrite <- app_assoc. reflexivity.
  - rewrite (attempt_clean _ _ _ _ E). exists 1%nat.
    cbn [fst snd requests sleeps set_requests repeat Nat.sub].
    rewrite E, app_nil_r.
    repeat split; try lia; intros; discriminate.
Qed.

(** X3.  On a valid URL [shorten_url] sends between one and three requests,
    all to the same address; a result that contains "Error" means that
    all three attempts were made (and three seconds slept), and a clean
    result after [k] requests comes after [k - 1] sleeps. *)
Theorem shorten_url_attempts (long_url : string) (w : World) :
  is_valid_url long_url = true ->
  exists k,
    (1 <= k <= 3)%nat /\
    requests (exec (shorten_url long_url) w) =
      (requests w ++ repeat (SHORTENER_API ++ long_url)%string k)%list /\
    (Py.contains "Error" (eval (shorten_url long_url) w) = true ->
     k = 3%nat /\
     sleeps (exec (shorten_url long_url) w) = (sleeps w ++ [1; 1; 1])%list) /\
    (Py.contains "Error" (eval (shorten_url long_url) w) = false ->
     sleeps (exec (shorten_url long_url) w) = (sleeps w ++ repeat 1 (k - 1))%list).
Proof.
  intros Hv. unfold shorten_url. rewrite Hv. cbn [negb].
  apply (shorten_attempts_count 2).
Qed.

(** X4.  When all three requests raise, [shorten_url] returns the message
    of the third exception, which contains "Error". *)
Theorem shorten_url_all_raise (long_url : string) (w : World) :
  is_valid_url long_url = true ->
  (forall k text, (k < 3)%nat ->
     server w (k + List.length (requests w)) (SHORTENER_API ++ long_url)
       <> Body text) ->
  eval (shorten_url long_url) w =
    response_text (server w (2 + List.length (requests w))
                     (SHORTENER_API ++ long_url)) /\
  Py.contains "Error" (eval (shorten_url long_url) w) = true /\
  List.length (requests (exec (shorten_url long_url) w)) =
    (3 + List.length (requests w))%nat.
Proof.
  intros Hv H.
  destruct (shorten_url_all_fail long_url w Hv) as (Hr & Hq & _).
  - intros k Hk. apply error_text_marked. intros text. apply H. exact Hk.
  - split; [exact Hr |]. split; [| exact Hq].
    rewrite Hr. apply error_text_marked. intros text. apply (H 2%nat). lia.
Qed.

(** *** The history store, continued *)

Lemma bounded_append_snoc (history : list Entry) (entry : Entry) :
  bounded_append history entry = (Py.last_n 4 history ++ [entry])%list.
Proof.
  rewrite bounded_append_last_n. unfold Py.last_n, MAX_HISTORY_SIZE.
  rewrite length_app, skipn_app. cbn [List.length].
  replace (List.length history + 1 - 5)%nat with (List.length history - 4)%nat by lia.
  replace (List.length history - 4 - List.length history)%nat with 0%nat by lia.
  reflexivity.
Qed.




(** *** Updating a record, continued *)

Lemma update_entry_cases (entry : Entry) (new_long_url : option string)
    (new_expiry_seconds : option Z) (w : World) :
  (update_entry entry new_long_url new_expiry_seconds w =
     (Some (apply_expiry entry new_expiry_seconds (clock w)), w)) \/
  (update_entry entry new_long_url new_expiry_seconds w =
     (None,
      exec (console_print (Print "[bold red]New URL is not valid.[/bold red]")) w)) \/
  (exists url,
     update_entry entry new_long_url new_expiry_seconds w =
       (Some (apply_expiry (retarget entry url (eval (shorten_url url) w))
                new_expiry_seconds (clock (exec (shorten_url url) w))),
        exec (shorten_url url) w)).
Proof.
  destruct (Py.truthy_opt new_long_url) eqn:Ht.
  - destruct new_long_url as [url |]; [| discriminate Ht]. cbn in Ht.
    destruct (is_valid_url url) eqn:Hv.
    + right. right. exists url. apply update_entry_valid; assumption.
    + right. left. apply update_entry_invalid; assumption.
  - left. apply update_entry_keep. exact Ht.
Qed.

Lemma apply_expiry_shape (entry : Entry) (new_expiry_seconds : option Z) (now : Z) :
  custom_name (apply_expiry entry new_expiry_seconds now) = custom_name entry /\
  timestamp (apply_expiry entry new_expiry_seconds now) = timestamp entry /\
  long_url (apply_expiry entry new_expiry_seconds now) = long_url entry /\
  short_url (apply_expiry entry new_expiry_seconds now) = short_url entry.
Proof. destruct new_expiry_seconds; cbn; auto. Qed.

(** The body of the loop keeps the name and the time stamp of the record,
    and writes neither the file nor the keyboard. *)
Lemma update_entry_shape (entry : Entry) (new_long_url : option string)
    (new_expiry_seconds : option Z) (w : World) :
  file (exec (update_entry entry new_long_url new_expiry_seconds) w) = file w /\
  stdin (exec (update_entry entry new_long_url new_expiry_seconds) w) = stdin w /\
  forall entry',
    eval (update_entry entry new_long_url new_expiry_seconds) w = Some entry' ->
    custom_name entry' = custom_name entry /\ timestamp entry' = timestamp entry.
Proof.
  unfold eval, exec.
  destruct (update_entry_cases entry new_long_url new_expiry_seconds w)
    as [-> | [-> | (url & ->)]]; cbn [fst snd].
  - split; [reflexivity |]. split; [reflexivity |].
    intros entry' H. injection H as <-.
    destruct (apply_expiry_shape entry new_expiry_seconds (clock w)) as (Hn & Ht & _).
    split; assumption.
  - split; [reflexivity |]. split; [reflexivity |].
    intros entry' H. discriminate H.
  - destruct (shorten_url_frame url w) as (Hf & _ & Hi & _).
    split; [exact Hf |]. split; [exact Hi |].
    intros entry' H. injection H as <-.
    destruct (apply_expiry_shape
                (retarget entry url (eval (shorten_url url) w)) new_expiry_seconds
                (clock (exec (shorten_url url) w))) as (-> & -> & _).
    split; reflexivity.
Qed.

Lemma update_scan_shape (name new_long_url : option string)
    (new_expiry_seconds : option Z) (history : list Entry) :
  forall w,
    file (exec (update_scan history name new_long_url new_expiry_seconds) w) = file w /\
    stdin (exec (update_scan history name new_long_url new_expiry_seconds) w)
      = stdin w /\
    forall history',
      eval (update_scan history name new_long_url new_expiry_seconds) w
        = Updated history' ->
      map custom_name history' = map custom_name history /\
      map timestamp history' = map timestamp history.
Proof.
  induction history as [| entry rest IH]; intros w.
  - unfold eval, exec. cbn. split; [reflexivity |]. split; [reflexivity |].
    intros h H. discriminate H.
  - cbn [update_scan]. destruct (Py.eq_opt (custom_name entry) name).
    + rewrite exec_bind, eval_bind.
      destruct (update_entry_shape entry new_long_url new_expiry_seconds w)
        as (Hf & Hi & Hshape).
      destruct (eval (update_entry entry new_long_url new_expiry_seconds) w)
        as [entry' |]; unfold exec at 1 3, eval at 1, ret; cbn [fst snd].
      * split; [exact Hf |]. split; [exact Hi |].
        intros h H. injection H as <-.
        destruct (Hshape entry' eq_refl) as [Hn Ht]. cbn. rewrite Hn, Ht. auto.
      * split; [exact Hf |]. split; [exact Hi |]. intros h H. discriminate H.
    + rewrite exec_bind, eval_bind.
      destruct (IH w) as (Hf & Hi & Hshape).
      destruct (eval (update_scan rest name new_long_url new_expiry_seconds) w)
        as [rest' | |]; unfold exec at 1 3, eval at 1, ret; cbn [fst snd].
      * split; [exact Hf |]. split; [exact Hi |].
        intros h H. injection H as <-.
        destruct (Hshape rest' eq_refl) as [Hn Ht]. cbn. rewrite Hn, Ht. auto.
      * split; [exact Hf |]. split; [exact Hi |]. intros h H. discriminate H.
      * split; [exact Hf |]. split; [exact Hi |]. intros h H. discriminate H.
Qed.

(** X7.  Whatever its arguments, [update_link] keeps the number of stored
    records, their order, their names and their creation time stamps; it
    neither creates a missing history file nor removes an existing one. *)
Theorem update_link_keeps_names (name new_long_url : option string)
    (new_expiry_seconds : option Z) (w : World) :
  map custom_name (stored (exec (update_link name new_long_url new_expiry_seconds) w))
    = map custom_name (stored w) /\
  map timestamp (stored (exec (update_link name new_long_url new_expiry_seconds) w))
    = map timestamp (stored w) /\
  List.length (stored (exec (update_link name new_long_url new_expiry_seconds) w))
    = List.length (stored w) /\
  (file (exec (update_link name new_long_url new_expiry_seconds) w) = None <->
   file w = None).
Proof.
  assert (Hmain :
    map custom_name (stored (exec (update_link name new_long_url new_expiry_seconds) w))
      = map custom_name (stored w) /\
    map timestamp (stored (exec (update_link name new_long_url new_expiry_seconds) w))
      = map timestamp (stored w) /\
    (file (exec (update_link name new_long_url new_expiry_seconds) w) = None <->
     file w = None)).
  { unfold exec at 1 2 3. destruct (file w) as [history |] eqn:Hfile.
    - rewrite (update_link_run _ _ _ _ _ Hfile).
      destruct (update_scan_shape name new_long_url new_expiry_seconds history w)
        as (Hf & _ & Hshape).
      unfold eval, exec in Hf, Hshape.
      destruct (update_scan history name new_long_url new_expiry_seconds w)
        as [[history' | |] w']; cbn [fst snd] in *.
      + destruct (Hshape history' eq_refl) as [Hn Ht].
        unfold stored. cbn. rewrite Hfile. rewrite Hn, Ht.
        repeat split; intros H; discriminate H.
      + unfold stored. rewrite Hf, Hfile.
        repeat split; intros H; discriminate H.
      + unfold stored. cbn. rewrite Hf, Hfile.
        repeat split; intros H; discriminate H.
    - rewrite (update_link_no_file _ _ _ _ Hfile). unfold stored. cbn.
      rewrite Hfile. repeat split; auto. }
  destruct Hmain as (Hn & Ht & Hfile). repeat split; try assumption; try apply Hfile.
  rewrite <- (length_map custom_name), Hn, length_map. reflexivity.
Qed.


(** *** Reading the history *)

Lemma missing_file_runs (name new_long_url : option string)
    (new_expiry_seconds : option Z) (w : World) :
  file w = None ->
  exec show_history w = exec (console_print not_found_notice) w /\
  exec delete_expired_links w = exec (console_print not_found_notice) w /\
  exec (update_link name new_long_url new_expiry_seconds) w
    = exec (console_print not_found_notice) w /\
  exec remind_expiring_links w = exec (console_print not_found_notice) w /\
  exec get_file w = exec (console_print not_found_notice) w.
Proof.
  intros H. destruct w as [stored_file now srv reqs slept out keys clip dir].
  cbn in H. subst stored_file. repeat split.
Qed.

(** X9.  Without a history file, listing, pruning, updating, reminding
    and the file-path display each print "History not found." and change
    nothing else: no file is created and no request is sent. *)
Theorem missing_file_reported (name new_long_url : option string)
    (new_expiry_seconds : option Z) (w : World) :
  file w = None ->
  exec show_history w = exec (console_print not_found_notice) w /\
  exec delete_expired_links w = exec (console_print not_found_notice) w /\
  exec (update_link name new_long_url new_expiry_seconds) w
    = exec (console_print not_found_notice) w /\
  exec remind_expiring_links w = exec (console_print not_found_notice) w /\
  exec get_file w = exec (console_print not_found_notice) w.
Proof. apply missing_file_runs. Qed.

Lemma printing_runs (w : World) :
  (exists out, exec show_history w = set_console (console w ++ out)%list w) /\
  (exists out, exec remind_expiring_links w = set_console (console w ++ out)%list w) /\
  (exists out, exec get_file w = set_console (console w ++ out)%list w) /\
  (exists out, exec show_about w = set_console (console w ++ out)%list w) /\
  (exists out, exec usega w = set_console (console w ++ out)%list w).
Proof.
  split; [apply prints_show_history |].
  split; [apply prints_remind_expiring_links |].
  split; [apply prints_get_file |].
  split; [exact (prints_console_print _ w) | exact (prints_console_print _ w)].
Qed.

(** X10.  Listing, reminding, the file-path display, the about panel and
    the placeholder action only print: whatever the history, the file, the
    clock, the request log, the keyboard and the clipboard are as before. *)
Theorem printing_operations_only_print (w : World) :
  (exists out, exec show_history w = set_console (console w ++ out)%list w) /\
  (exists out, exec remind_expiring_links w = set_console (console w ++ out)%list w) /\
  (exists out, exec get_file w = set_console (console w ++ out)%list w) /\
  (exists out, exec show_about w = set_console (console w ++ out)%list w) /\
  (exists out, exec usega w = set_console (console w ++ out)%list w).
Proof. apply printing_runs. Qed.

Lemma filter_none {A : Type} (keep : A -> bool) (l : list A) :
  (forall x, In x l -> keep x = false) -> filter keep l = [].
Proof.
  induction l as [| x l IH]; intros H; cbn; [reflexivity |].
  rewrite (H x) by (left; reflexivity). apply IH. intros y Hy. apply H. right. exact Hy.
Qed.

(** The loop that fills the table makes the rows of the records that are
    not expired, or stops at the first of them whose expiry [time.ctime]
    refuses. *)
Lemma table_rows_spec (now : Z) (history : list Entry) :
  match table_rows now history with
  | Value rows =>
      rows = map table_row (filter (fun entry => negb (is_expired now entry)) history) /\
      forall entry,
        In entry (filter (fun entry => negb (is_expired now entry)) history) ->
        row_error entry = None
  | Stopped why =>
      exists entry e,
        In entry (filter (fun entry => negb (is_expired now entry)) history) /\
        row_error entry = Some e /\ why = Raised e
  end.
Proof.
  induction history as [| entry rest IH]; cbn [table_rows filter map].
  - split; [reflexivity | intros entry []].
  - destruct (is_expired now entry); cbn [negb]; [exact IH |].
    destruct (row_error entry) as [e |] eqn:He.
    + exists entry, e. split; [left; reflexivity | auto].
    + destruct (table_rows now rest) as [rows | why].
      * destruct IH as [-> Hall]. split; [reflexivity |].
        intros other [<- | Hin]; [exact He | apply Hall; exact Hin].
      * destruct IH as (other & e & Hin & Herr & ->).
        exists other, e. split; [right; exact Hin | auto].
Qed.

Lemma show_history_run (w : World) (first : Entry) (rest : list Entry) :
  file w = Some (first :: rest) ->
  show_history w =
    match table_rows (clock w) (first :: rest) with
    | Value rows =>
        if forallb cells_ok rows
        then (Value tt, set_console (console w ++ [PrintTable rows])%list w)
        else (Stopped MarkupError, w)
    | Stopped why => (Stopped why, w)
    end.
Proof.
  intros H. destruct w as [stored_file now srv reqs slept out keys clip dir].
  cbn [file] in H. subst stored_file.
  unfold show_history, history_exists, json_load, time_time, bind_result, bind, ret.
  cbn [file negb clock].
  destruct (table_rows now (first :: rest)) as [rows | why]; [| reflexivity].
  unfold print_table. destruct (forallb cells_ok rows); reflexivity.
Qed.

Lemma cells_ok_rows (entries : list Entry) :
  forallb cells_ok (map table_row entries) = true <->
  forall entry, In entry entries -> cells_ok (table_row entry) = true.
Proof.
  rewrite forallb_forall. split.
  - intros H entry Hin. apply H. apply in_map. exact Hin.
  - intros H row Hin. apply in_map_iff in Hin. destruct Hin as (entry & <- & Hin).
    apply H. exact Hin.
Qed.

(** X11.  With a non-empty stored history [show_history] either prints one
    table or raises and prints nothing.  It prints the table exactly when,
    for every record that [delete_expired_links] would keep at that moment,
    [time.ctime] accepts the expiry and the console accepts the five cells
    as markup; the rows of the table are then exactly those records, in
    order.  When every record is expired it prints a table without rows (not
    the "No history available." notice, which is kept for an empty stored
    list).  When it raises, the exception is that of [time.ctime] on the
    expiry of a record that is kept, or [MarkupError]. *)
Theorem show_history_lists_survivors (w : World) (first : Entry) (rest : list Entry) :
  file w = Some (first :: rest) ->
  (eval show_history w = Value tt <->
   forall entry, In entry (stored (exec delete_expired_links w)) ->
     row_error entry = None /\ cells_ok (table_row entry) = true) /\
  (eval show_history w = Value tt ->
   console (exec show_history w) =
     (console w
      ++ [PrintTable (map table_row (stored (exec delete_expired_links w)))])%list) /\
  (forall why, eval show_history w = Stopped why ->
     exec show_history w = w /\
     (why = MarkupError \/
      exists entry e,
        In entry (stored (exec delete_expired_links w)) /\
        row_error entry = Some e /\ why = e)) /\
  ((forall entry, In entry (first :: rest) -> is_expired (clock w) entry = true) ->
   eval show_history w = Value tt /\
   console (exec show_history w) = (console w ++ [PrintTable []])%list).
Proof.
  intros H.
  assert (Hkept : stored (exec delete_expired_links w) =
            filter (fun entry => negb (is_expired (clock w) entry)) (first :: rest)).
  { unfold exec. rewrite (delete_expired_links_run _ _ H). reflexivity. }
  rewrite Hkept. unfold eval, exec. rewrite (show_history_run _ _ _ H).
  pose proof (table_rows_spec (clock w) (first :: rest)) as Hrows.
  destruct (table_rows (clock w) (first :: rest)) as [rows | why].
  - destruct Hrows as [-> Herr].
    destruct (forallb cells_ok
                (map table_row
                   (filter (fun entry => negb (is_expired (clock w) entry))
                      (first :: rest)))) eqn:Hcells; cbn [fst snd].
    + split; [| split; [| split]].
      * split; [| reflexivity]. intros _ entry Hin.
        split; [apply Herr; exact Hin |].
        apply (proj1 (cells_ok_rows _) Hcells). exact Hin.
      * intros _. reflexivity.
      * intros why Hwhy. discriminate Hwhy.
      * intros Hall. rewrite filter_none; [split; reflexivity |].
        intros entry Hin. rewrite (Hall entry Hin). reflexivity.
    + split; [| split; [| split]].
      * split; [discriminate |]. intros Hgood. exfalso.
        assert (Htrue : forallb cells_ok
                  (map table_row
                     (filter (fun entry => negb (is_expired (clock w) entry))
                        (first :: rest))) = true).
        { apply cells_ok_rows. intros entry Hin. apply Hgood. exact Hin. }
        rewrite Htrue in Hcells. discriminate Hcells.
      * discriminate.
      * intros why Hwhy. injection Hwhy as <-. split; [reflexivity | left; reflexivity].
      * intros Hall. exfalso.
        rewrite filter_none in Hcells; [discriminate Hcells |].
        intros entry Hin. rewrite (Hall entry Hin). reflexivity.
  - destruct Hrows as (entry & e & Hin & Herr & ->). cbn [fst snd].
    split; [| split; [| split]].
    + split; [discriminate |]. intros Hgood.
      destruct (Hgood entry Hin) as [Hnone _]. rewrite Hnone in Herr. discriminate Herr.
    + discriminate.
    + intros why Hwhy. injection Hwhy as <-. split; [reflexivity |].
      right. exists entry, e. auto.
    + intros Hall. exfalso.
      rewrite filter_none in Hin; [destruct Hin |].
      intros other Hother. rewrite (Hall other Hother). reflexivity.
Qed.

Lemma is_expiring_iff (now : Z) (entry : Entry) :
  is_expiring now entry = true <->
  exists t, expiry_timestamp entry = Some t /\ t <> 0 /\ t - now <= 3600.
Proof.
  unfold is_expiring, Py.truthy_num.
  destruct (expiry_timestamp entry) as [t |].
  - rewrite andb_true_iff, negb_true_iff, Z.eqb_neq, Z.leb_le. split.
    + intros [H0 Hle]. exists t. auto.
    + intros (t' & Heq & H0 & Hle). injection Heq as <-. auto.
  - split; [discriminate | intros (t & Heq & _); discriminate].
Qed.

(** X12.  [remind_expiring_links] goes through the history in order and
    prints the four-line reminder of every record whose expiry is set, is
    not zero and lies at most 3600 seconds after the current time (exactly
    3600 included, any time in the past included), and nothing for the
    other records, until a call raises: what it has printed is always a
    beginning of that list of reminders, and the whole list when it
    returns.  It returns whenever, for each of these records, the console
    accepts the three texts made from the record as markup and [time.ctime]
    accepts the expiry.  The history file is not touched. *)
Theorem remind_expiring_links_reminders (w : World) (history : list Entry) :
  file w = Some history ->
  (exists printed unprinted,
     console (exec remind_expiring_links w) = (console w ++ printed)%list /\
     flat_map (reminder_if_expiring (clock w)) history = (printed ++ unprinted)%list /\
     (eval remind_expiring_links w = Value tt -> unprinted = [])) /\
  ((forall entry t, In entry history -> expiry_timestamp entry = Some t ->
      is_expiring (clock w) entry = true -> reminder_prints entry t = true) ->
   eval remind_expiring_links w = Value tt /\
   console (exec remind_expiring_links w) =
     (console w ++ flat_map (reminder_if_expiring (clock w)) history)%list) /\
  file (exec remind_expiring_links w) = file w /\
  forall entry,
    (forall t, expiry_timestamp entry = Some t -> t <> 0 -> t - clock w <= 3600 ->
       reminder_if_expiring (clock w) entry = reminder entry t) /\
    ((~ exists t, expiry_timestamp entry = Some t /\ t <> 0 /\ t - clock w <= 3600) ->
       reminder_if_expiring (clock w) entry = []).
Proof.
  intros H.
  destruct (remind_loop_run (clock w) history w)
    as (printed & unprinted & Hexec & Hall & Hdone & Hok).
  unfold eval, exec in *. rewrite (remind_expiring_links_run _ _ H).
  split; [| split; [| split]].
  - exists printed, unprinted. rewrite Hexec. auto.
  - intros Hgood. split; [apply Hok; exact Hgood |].
    rewrite Hexec, Hall, (Hdone (Hok Hgood)), app_nil_r. reflexivity.
  - rewrite Hexec. reflexivity.
  - intros entry. unfold reminder_if_expiring. split.
    + intros t Ht H0 Hle. rewrite Ht.
      replace (is_expiring (clock w) entry) with true; [reflexivity |].
      symmetry. apply is_expiring_iff. exists t. auto.
    + intros Hno. destruct (expiry_timestamp entry) as [t |] eqn:Ht; [| reflexivity].
      destruct (is_expiring (clock w) entry) eqn:E; [| reflexivity].
      exfalso. apply Hno. apply is_expiring_iff in E. rewrite Ht in E. exact E.
Qed.

(** X13.  A record saved through the clipboard flow carries the clipboard
    text as its long URL, has neither a name nor an expiry, and is the last
    stored record; no pruning ever removes it.  The flow saves it whenever
    the result is clean and the console accepts the line that shows the
    result; when the console refuses that line, [console.print] raises
    [MarkupError] and nothing is saved. *)
Theorem clipboard_record_never_expires (w : World) :
  is_valid_url (clipboard w) = true ->
  Py.contains "Error" (eval (shorten_url (clipboard w)) w) = false ->
  if markup_ok (shortened_line (eval (shorten_url (clipboard w)) w)) then
    exists older entry,
      file (exec shorten_url_from_clipboard w) = Some (older ++ [entry])%list /\
      long_url entry = clipboard w /\
      short_url entry = eval (shorten_url (clipboard w)) w /\
      custom_name entry = None /\
      expiry_timestamp entry = None /\
      forall now, is_expired now entry = false
  else
    eval shorten_url_from_clipboard w = Stopped MarkupError /\
    file (exec shorten_url_from_clipboard w) = file w.
Proof.
  intros Hv Hc.
  destruct (markup_ok (shortened_line (eval (shorten_url (clipboard w)) w))) eqn:Hm.
  - unfold exec at 1. rewrite (shorten_url_from_clipboard_run _ Hv).
    change (snd (shorten_and_save (clipboard w) None None w))
      with (exec (shorten_and_save (clipboard w) None None) w).
    rewrite shorten_and_save_file, Hc, Hm, bounded_append_snoc.
    eexists. eexists. split; [reflexivity |]. repeat split.
  - unfold eval at 1, exec at 1. rewrite (shorten_url_from_clipboard_run _ Hv).
    rewrite shorten_and_save_run, Hm. cbn [fst snd].
    split; [reflexivity |]. apply shorten_url_frame.
Qed.

(** *** What every run of the menu keeps *)

Lemma follows_refl (w : World) : follows w w.
Proof.
  repeat split; [exists []; reflexivity | auto | | lia].
  exists []. rewrite app_nil_r. split; [reflexivity | constructor].
Qed.

Lemma follows_trans (w1 w2 w3 : World) :
  follows w1 w2 -> follows w2 w3 -> follows w1 w3.
Proof.
  intros ((r1 & Hr1) & Hb1 & (s1 & Hs1 & Hv1) & Hc1)
         ((r2 & Hr2) & Hb2 & (s2 & Hs2 & Hv2) & Hc2).
  repeat split.
  - exists (r1 ++ r2)%list. rewrite Hr1, Hr2, app_assoc. reflexivity.
  - auto.
  - exists (s1 ++ s2)%list. rewrite Hs2, Hs1, app_assoc.
    split; [reflexivity | apply Forall_app; auto].
  - lia.
Qed.

(** A world that differs in the console, or in nothing the relation looks
    at, follows. *)
Lemma follows_same (w w' : World) :
  stdin w' = stdin w -> file w' = file w -> requests w' = requests w ->
  clock w' = clock w -> follows w w'.
Proof.
  intros Hi Hf Hr Hc. repeat split.
  - exists []. rewrite Hi. reflexivity.
  - unfold bounded, stored. rewrite Hf. auto.
  - exists []. rewrite Hr, app_nil_r. split; [reflexivity | constructor].
  - lia.
Qed.

Lemma follows_set_file (history : list Entry) (w : World) :
  (bounded w -> (List.length history <= MAX_HISTORY_SIZE)%nat) ->
  follows w (set_file (Some history) w).
Proof.
  intros H. repeat split.
  - exists []. reflexivity.
  - exact H.
  - exists []. cbn. rewrite app_nil_r. split; [reflexivity | constructor].
  - cbn. lia.
Qed.

Lemma tame_ret {A : Type} (a : A) : tame (ret a).
Proof. intros w. apply follows_refl. Qed.

Lemma tame_bind {A B : Type} (m : M A) (k : A -> M B) :
  tame m -> (forall a, tame (k a)) -> tame (bind m k).
Proof.
  intros Hm Hk w. rewrite exec_bind.
  eapply follows_trans; [apply Hm | apply Hk].
Qed.

Lemma tame_console_print (o : Output) : tame (console_print o).
Proof. intros w. apply follows_same; reflexivity. Qed.

Lemma tame_printing {A : Type} (m : M A) : prints m -> tame m.
Proof.
  intros H w. destruct (H w) as (out & ->). apply follows_same; reflexivity.
Qed.

Lemma tame_console_print_markup (text : string) : tame (console_print_markup text).
Proof. apply tame_printing, prints_console_print_markup. Qed.

Lemma tame_shorten_url (long_url : string) : tame (shorten_url long_url).
Proof.
  intros w. destruct (shorten_url_frame long_url w) as (Hf & _ & Hi & _ & _ & Hc).
  repeat split.
  - exists []. rewrite Hi. reflexivity.
  - unfold bounded, stored. rewrite Hf. auto.
  - destruct (is_valid_url long_url) eqn:Hv.
    + unfold shorten_url. rewrite Hv. cbn [negb].
      destruct (shorten_attempts_count 2 long_url EmptyString w)
        as (k & _ & Hreq & _).
      exists (repeat (SHORTENER_API ++ long_url)%string k). split; [exact Hreq |].
      apply Forall_forall. intros r Hr. apply repeat_spec in Hr. subst r.
      exists long_url. auto.
    + unfold shorten_url, exec. rewrite Hv. cbn.
      exists []. rewrite app_nil_r. split; [reflexivity | constructor].
  - exact Hc.
Qed.

Lemma bounded_append_length (history : list Entry) (entry : Entry) :
  (List.length (bounded_append history entry) <= MAX_HISTORY_SIZE)%nat.
Proof. rewrite bounded_append_last_n, last_n_length. lia. Qed.

Lemma tame_save_to_history (long_url short_url : string) (name : option string)
    (expiry_seconds : option Z) :
  tame (save_to_history long_url short_url name expiry_seconds).
Proof.
  intros w. unfold exec. rewrite save_to_history_run. cbn [snd].
  apply follows_set_file. intros _. apply bounded_append_length.
Qed.

Lemma tame_bind_result {A B : Type} (m : M (Result A)) (k : A -> M (Result B)) :
  tame m -> (forall a, tame (k a)) -> tame (bind_result m k).
Proof.
  intros Hm Hk. unfold bind_result. apply tame_bind; [exact Hm |].
  intros [a | why]; [apply Hk | apply tame_ret].
Qed.

Lemma tame_lift {A : Type} (m : M A) : tame m -> tame (lift m).
Proof.
  intros Hm. unfold lift. apply tame_bind; [exact Hm | intros a; apply tame_ret].
Qed.

Lemma tame_save_to_history_call (long_url short_url : string) (name : option string)
    (expiry_seconds : option Z) :
  tame (save_to_history_call long_url short_url name expiry_seconds).
Proof.
  unfold save_to_history_call. destruct (expiry_overflows expiry_seconds);
    [apply tame_ret | apply tame_lift, tame_save_to_history].
Qed.

Lemma tame_shorten_and_save (long_url : string) (name : option string)
    (expiry_seconds : option Z) :
  tame (shorten_and_save long_url name expiry_seconds).
Proof.
  unfold shorten_and_save. apply tame_bind; [apply tame_shorten_url |].
  intros short. apply tame_bind_result; [apply tame_console_print_markup |]. intros _.
  destruct (negb (Py.contains "Error" short));
    [apply tame_save_to_history_call | apply tame_ret].
Qed.

Lemma tame_shorten_url_from_clipboard : tame shorten_url_from_clipboard.
Proof.
  unfold shorten_url_from_clipboard. apply tame_bind.
  - intros w. apply follows_refl.
  - intros long_url. destruct (negb (is_valid_url long_url));
      [apply tame_lift, tame_console_print |].
    apply tame_bind; [apply tame_shorten_url |]. intros short.
    apply tame_bind_result; [apply tame_console_print_markup |]. intros _.
    destruct (negb (Py.contains "Error" short));
      [apply tame_lift, tame_save_to_history | apply tame_ret].
Qed.

Lemma tame_delete_expired_links : tame delete_expired_links.
Proof.
  intros w. destruct (file w) as [history |] eqn:Hf.
  - unfold exec. rewrite (delete_expired_links_run _ _ Hf). cbn [snd].
    apply follows_set_file. unfold bounded, stored. rewrite Hf. intros Hb.
    etransitivity; [apply filter_length_le | exact Hb].
  - destruct (missing_file_runs None None None w Hf) as (_ & -> & _).
    apply tame_console_print.
Qed.

Lemma tame_update_entry (entry : Entry) (new_long_url : option string)
    (new_expiry_seconds : option Z) :
  tame (update_entry entry new_long_url new_expiry_seconds).
Proof.
  intros w. unfold exec at 1.
  destruct (update_entry_cases entry new_long_url new_expiry_seconds w)
    as [-> | [-> | (url & ->)]]; cbn [snd].
  - apply follows_refl.
  - apply tame_console_print.
  - apply tame_shorten_url.
Qed.

Lemma tame_update_scan (name new_long_url : option string)
    (new_expiry_seconds : option Z) (history : list Entry) :
  tame (update_scan history name new_long_url new_expiry_seconds).
Proof.
  induction history as [| entry rest IH]; cbn [update_scan]; [apply tame_ret |].
  destruct (Py.eq_opt (custom_name entry) name).
  - apply tame_bind; [apply tame_update_entry | intros r; apply tame_ret].
  - apply tame_bind; [exact IH | intros r; apply tame_ret].
Qed.

Lemma tame_update_link (name new_long_url : option string)
    (new_expiry_seconds : option Z) :
  tame (update_link name new_long_url new_expiry_seconds).
Proof.
  intros w. destruct (file w) as [history |] eqn:Hfile.
  - unfold exec. rewrite (update_link_run _ _ _ _ _ Hfile).
    pose proof (tame_update_scan name new_long_url new_expiry_seconds history w)
      as Hfollows.
    destruct (update_scan_shape name new_long_url new_expiry_seconds history w)
      as (Hf & _ & Hshape).
    unfold eval, exec in Hfollows, Hf, Hshape.
    destruct (update_scan history name new_long_url new_expiry_seconds w)
      as [[history' | |] w']; cbn [fst snd] in *.
    + eapply follows_trans; [exact Hfollows |].
      eapply follows_trans; [| apply tame_console_print].
      apply follows_set_file. unfold bounded, stored. rewrite Hf, Hfile.
      destruct (Hshape history' eq_refl) as [Hn _].
      rewrite <- (length_map custom_name history'), Hn, length_map. auto.
    + exact Hfollows.
    + eapply follows_trans; [exact Hfollows | apply tame_console_print].
  - unfold exec. rewrite (update_link_no_file _ _ _ _ Hfile). cbn [snd].
    apply tame_console_print.
Qed.

(** The call of the menu: when the sum raises, nothing is written. *)
Lemma tame_update_link_call (name new_long_url : option string)
    (new_expiry_seconds : option Z) :
  tame (update_link_call name new_long_url new_expiry_seconds).
Proof.
  unfold update_link_call. destruct new_expiry_seconds as [seconds |];
    [| apply tame_lift, tame_update_link].
  destruct (Py.float_overflow seconds); [| apply tame_lift, tame_update_link].
  apply tame_bind; [apply tame_printing, prints_history_exists |]. intros present.
  destruct (negb present); [apply tame_lift, tame_console_print |].
  apply tame_bind; [apply tame_printing, prints_json_load |]. intros history.
  apply tame_bind; [apply tame_update_scan |].
  intros [history' | |];
    [apply tame_ret | apply tame_ret | apply tame_lift, tame_console_print].
Qed.

Lemma tame_show_history : tame show_history.
Proof. apply tame_printing, prints_show_history. Qed.

Lemma tame_remind_expiring_links : tame remind_expiring_links.
Proof. apply tame_printing, prints_remind_expiring_links. Qed.

Lemma tame_get_file : tame get_file.
Proof. apply tame_printing, prints_get_file. Qed.

Lemma tame_show_about : tame show_about.
Proof. apply tame_console_print. Qed.

Lemma tame_usega : tame usega.
Proof. apply tame_console_print. Qed.

Lemma tame_input_strip : tame input_strip.
Proof.
  intros w. unfold exec, input_strip, bind, input.
  destruct (stdin w) as [| line rest] eqn:Hin; cbn [snd].
  - apply follows_refl.
  - repeat split.
    + exists [line]. cbn. exact Hin.
    + auto.
    + exists []. cbn. rewrite app_nil_r. split; [reflexivity | constructor].
    + cbn. lia.
Qed.

Lemma tame_ask_long_url (fuel : nat) : tame (ask_long_url fuel).
Proof.
  induction fuel as [| fuel IH]; cbn [ask_long_url]; [apply tame_ret |].
  apply tame_bind_result; [apply tame_input_strip |]. intros long_url.
  destruct (Py.truthy long_url && is_valid_url long_url); [apply tame_ret |].
  destruct (negb (Py.truthy long_url));
    (apply tame_bind; [apply tame_console_print | intros _; exact IH]).
Qed.

Lemma tame_choice_shorten (fuel : nat) : tame (choice_shorten fuel).
Proof.
  unfold choice_shorten.
  apply tame_bind_result; [apply tame_ask_long_url |]. intros long_url.
  apply tame_bind_result; [apply tame_input_strip |]. intros name.
  apply tame_bind_result; [apply tame_input_strip |]. intros seconds.
  apply tame_bind_result; [apply tame_ret |]. intros expiry_seconds.
  apply tame_shorten_and_save.
Qed.

Lemma tame_choice_update : tame choice_update.
Proof.
  unfold choice_update.
  apply tame_bind_result; [apply tame_input_strip |]. intros name.
  destruct (Py.truthy name).
  - apply tame_bind_result; [apply tame_input_strip |]. intros new_long_url.
    apply tame_bind_result; [apply tame_input_strip |]. intros seconds.
    apply tame_bind_result; [apply tame_ret |]. intros new_expiry_seconds.
    apply tame_update_link_call.
  - apply tame_lift, tame_console_print.
Qed.

Lemma tame_other_menu (fuel : nat) : tame (other_menu fuel).
Proof.
  induction fuel as [| fuel IH]; cbn [other_menu]; [apply tame_ret |].
  apply tame_bind; [apply tame_lift, tame_console_print |]. intros _.
  apply tame_bind_result; [apply tame_input_strip |]. intros sub_choice.
  destruct (String.eqb sub_choice "1");
    [apply tame_bind; [apply tame_show_about | intros _; exact IH] |].
  destruct (String.eqb sub_choice "2");
    [apply tame_bind_result; [apply tame_get_file | intros _; exact IH] |].
  destruct (String.eqb sub_choice "3");
    [apply tame_bind; [apply tame_usega | intros _; exact IH] |].
  destruct (String.eqb sub_choice "4"); [apply tame_ret |].
  apply tame_bind; [apply tame_console_print | intros _; exact IH].
Qed.

Lemma tame_main_menu (fuel : nat) : tame (main_menu fuel).
Proof.
  induction fuel as [| fuel IH]; cbn [main_menu]; [apply tame_ret |].
  apply tame_bind; [apply tame_lift, tame_console_print |]. intros _.
  apply tame_bind_result; [apply tame_input_strip |]. intros choice.
  destruct (String.eqb choice "1");
    [apply tame_bind_result; [apply tame_choice_shorten | intros _; exact IH] |].
  destruct (String.eqb choice "2");
    [apply tame_bind_result; [apply tame_show_history | intros _; exact IH] |].
  destruct (String.eqb choice "3");
    [apply tame_bind_result; [apply tame_choice_update | intros _; exact IH] |].
  destruct (String.eqb choice "4");
    [apply tame_bind; [apply tame_delete_expired_links | intros _; exact IH] |].
  destruct (String.eqb choice "5");
    [apply tame_bind_result;
       [apply tame_shorten_url_from_clipboard | intros _; exact IH] |].
  destruct (String.eqb choice "6");
    [apply tame_bind_result;
       [apply tame_remind_expiring_links | intros _; exact IH] |].
  destruct (String.eqb choice "7");
    [apply tame_bind_result; [apply tame_other_menu | intros _; exact IH] |].
  destruct (String.eqb choice "8"); [apply tame_lift, tame_console_print |].
  apply tame_bind; [apply tame_console_print | intros _; exact IH].
Qed.

(** X14.  The bound on the history is an invariant of the program: when at
    most five records are stored (or there is no file), at most five are
    stored after any run of the menu, whatever is typed, pasted or
    answered by the server. *)
Theorem main_menu_keeps_bound (fuel : nat) (w : World) :
  (List.length (stored w) <= 5)%nat ->
  (List.length (stored (exec (main_menu fuel) w)) <= 5)%nat.
Proof. intros H. destruct (tame_main_menu fuel w) as (_ & Hb & _). exact (Hb H). Qed.

(** X15.  Every request sent during a run of the menu asks the shortening
    API for a URL that passed validation: the request log grows only by
    addresses made of the API prefix and a valid long URL. *)
Theorem main_menu_requests_valid (fuel : nat) (w : World) :
  exists sent,
    requests (exec (main_menu fuel) w) = (requests w ++ sent)%list /\
    forall request, In request sent ->
      exists long_url,
        request = SHORTENER_API ++ long_url /\ is_valid_url long_url = true.
Proof.
  destruct (tame_main_menu fuel w) as (_ & _ & (sent & Hreq & Hvalid) & _).
  exists sent. split; [exact Hreq |]. apply Forall_forall. exact Hvalid.
Qed.

(** *** The loops of the menu end *)

Lemma input_strip_eval (w : World) :
  eval input_strip w =
    match stdin w with
    | [] => Stopped EOFError
    | line :: _ => Value (Py.strip line)
    end /\
  stdin (exec input_strip w) = tl (stdin w).
Proof.
  unfold eval, exec, input_strip, bind, input.
  destruct (stdin w) as [| line rest] eqn:Hin; cbn; [rewrite Hin |]; auto.
Qed.

Lemma follows_stdin_length (w w' : World) :
  follows w w' -> (List.length (stdin w') <= List.length (stdin w))%nat.
Proof. intros ((read & ->) & _). rewrite length_app. lia. Qed.

Lemma ask_long_url_cases (fuel : nat) :
  forall w,
    (List.length (stdin w) < fuel)%nat ->
    (exists long_url line,
       eval (ask_long_url fuel) w = Value long_url /\
       In line (stdin w) /\ long_url = Py.strip line /\
       Py.truthy long_url = true /\ is_valid_url long_url = true) \/
    (eval (ask_long_url fuel) w = Stopped EOFError /\
     stdin (exec (ask_long_url fuel) w) = []).
Proof.
  induction fuel as [| fuel IH]; intros w Hfuel; [lia |].
  assert (Hstep : forall (notice : string) w1 rest,
            stdin w1 = rest -> (List.length rest < fuel)%nat ->
            (forall line, In line rest -> In line (stdin w)) ->
            (exists long_url line,
               eval (bind (console_print (Print notice))
                          (fun _ => ask_long_url fuel)) w1 = Value long_url /\
               In line (stdin w) /\ long_url = Py.strip line /\
               Py.truthy long_url = true /\ is_valid_url long_url = true) \/
            (eval (bind (console_print (Print notice))
                        (fun _ => ask_long_url fuel)) w1 = Stopped EOFError /\
             stdin (exec (bind (console_print (Print notice))
                               (fun _ => ask_long_url fuel)) w1) = [])).
  { intros notice w1 rest Hrest Hlen Hsub. rewrite eval_bind, exec_bind.
    destruct (IH (exec (console_print (Print notice)) w1)) as
      [(u & line & He & Hin & Hu & Ht & Hv) | [He Hs]].
    - cbn. rewrite Hrest. exact Hlen.
    - left. exists u, line. repeat split; try assumption.
      apply Hsub. cbn in Hin. rewrite Hrest in Hin. exact Hin.
    - right. split; assumption. }
  destruct (stdin w) as [| line rest] eqn:Hin.
  - right.
    assert (Hrun : ask_long_url (S fuel) w = (Stopped EOFError, w)).
    { cbn [ask_long_url]. unfold bind_result. unfold bind at 1.
      rewrite (input_strip_eof _ Hin). reflexivity. }
    unfold eval, exec. rewrite Hrun. split; [reflexivity | exact Hin].
  - assert (Hrun : ask_long_url (S fuel) w =
              (if Py.truthy (Py.strip line) && is_valid_url (Py.strip line)
               then ret (Value (Py.strip line))
               else if negb (Py.truthy (Py.strip line))
                    then bind (console_print
                                 (Print "[bold red]URL cannot be empty.[/bold red]"))
                              (fun _ => ask_long_url fuel)
                    else bind (console_print
                                 (Print "[bold red]Invalid URL format.[/bold red]"))
                              (fun _ => ask_long_url fuel))
                (set_stdin rest w)).
    { cbn [ask_long_url].
      rewrite (bind_result_value _ _ _ _ _ (input_strip_run _ _ _ Hin)).
      reflexivity. }
    unfold eval at 1 2, exec at 1. rewrite Hrun.
    cbn [List.length] in Hfuel.
    destruct (Py.truthy (Py.strip line) && is_valid_url (Py.strip line)) eqn:Hok.
    + left. exists (Py.strip line), line. apply andb_true_iff in Hok.
      destruct Hok as [Ht Hv].
      repeat split; try assumption; try reflexivity. left. reflexivity.
    + destruct (negb (Py.truthy (Py.strip line)));
        apply (Hstep _ _ rest); try reflexivity; try lia;
        intros l Hl; right; exact Hl.
Qed.


(** *** How the menu can end *)

Lemma expected_ctime (t : Z) (e : Exception) : ctime_error t = Some e -> expected e.
Proof. intros H. right. right. right. right. exists t. exact H. Qed.

Lemma safe_ret_value {A : Type} (a : A) : safe (ret (Value a)).
Proof. intros w. exact I. Qed.

Lemma safe_raise {A : Type} (e : Exception) : expected e -> safe (@raise A e).
Proof. intros H w. exact H. Qed.

Lemma safe_lift {A : Type} (m : M A) : safe (lift m).
Proof. intros w. unfold lift. rewrite eval_bind. exact I. Qed.

Lemma safe_bind {A B : Type} (m : M A) (k : A -> M (Result B)) :
  (forall a, safe (k a)) -> safe (bind m k).
Proof. intros Hk w. rewrite eval_bind. apply Hk. Qed.

Lemma ends_well_bind_result {A B : Type} (m : M (Result A)) (k : A -> M (Result B))
    (w : World) :
  ends_well (eval m w) ->
  (forall a, eval m w = Value a -> ends_well (eval (k a) (exec m w))) ->
  ends_well (eval (bind_result m k) w).
Proof.
  intros Hm Hk. rewrite bind_result_eval.
  destruct (eval m w) as [a | why]; [apply Hk; reflexivity | exact Hm].
Qed.

Lemma safe_bind_result {A B : Type} (m : M (Result A)) (k : A -> M (Result B)) :
  safe m -> (forall a, safe (k a)) -> safe (bind_result m k).
Proof.
  intros Hm Hk w. apply ends_well_bind_result; [apply Hm |].
  intros a _. apply Hk.
Qed.

Lemma safe_input_strip : safe input_strip.
Proof.
  intros w. destruct (input_strip_eval w) as [-> _].
  destruct (stdin w); [left; reflexivity | exact I].
Qed.

Lemma safe_console_print_markup (text : string) : safe (console_print_markup text).
Proof.
  unfold console_print_markup. destruct (markup_ok text); [apply safe_lift |].
  apply safe_raise. right. right. right. left. reflexivity.
Qed.

Lemma safe_int_or_none (answer : string) : safe (ret (int_or_none answer)).
Proof.
  intros w. unfold eval, ret, int_or_none. cbn [fst].
  destruct (isdigit answer); [| exact I].
  destruct (int answer); [exact I | right; left; reflexivity].
Qed.

Lemma safe_show_history : safe show_history.
Proof.
  unfold show_history. apply safe_bind. intros present.
  destruct (negb present); [apply safe_lift |].
  apply safe_bind. intros [| first rest]; [apply safe_lift |].
  apply safe_bind. intros current_time. apply safe_bind_result.
  - intros w. unfold eval, ret. cbn [fst].
    pose proof (table_rows_spec current_time (first :: rest)) as Hrows.
    destruct (table_rows current_time (first :: rest)) as [rows | why]; [exact I |].
    destruct Hrows as (entry & e & _ & Herr & ->). unfold row_error in Herr.
    destruct (expiry_timestamp entry) as [t |]; [| discriminate Herr].
    destruct (Py.truthy_num (Some t)); [| discriminate Herr].
    exact (expected_ctime _ _ Herr).
  - intros rows. unfold print_table. destruct (forallb cells_ok rows);
      [apply safe_lift |].
    apply safe_raise. right. right. right. left. reflexivity.
Qed.

Lemma safe_print_reminder (entry : Entry) (t : Z) : safe (print_reminder entry t).
Proof.
  unfold print_reminder.
  apply safe_bind_result; [apply safe_console_print_markup |]. intros _.
  apply safe_bind_result; [apply safe_console_print_markup |]. intros _.
  destruct (ctime_error t) as [e |] eqn:He;
    [apply safe_raise; exact (expected_ctime _ _ He) |].
  apply safe_bind_result; [apply safe_console_print_markup |]. intros _.
  apply safe_lift.
Qed.

Lemma safe_remind_expiring_links : safe remind_expiring_links.
Proof.
  unfold remind_expiring_links. apply safe_bind. intros present.
  destruct (negb present); [apply safe_lift |].
  apply safe_bind. intros history. apply safe_bind. intros current_time.
  induction history as [| entry rest IH]; cbn [remind_loop]; [apply safe_ret_value |].
  apply safe_bind_result; [| intros _; exact IH].
  destruct (expiry_timestamp entry) as [t |]; [| apply safe_ret_value].
  destruct (Py.truthy_num (Some t) && (t - current_time <=? 3600));
    [apply safe_print_reminder | apply safe_ret_value].
Qed.

Lemma safe_get_file : safe get_file.
Proof.
  unfold get_file. apply safe_bind. intros present.
  destruct present; [| apply safe_lift].
  apply safe_bind. intros dir. apply safe_console_print_markup.
Qed.

Lemma safe_save_to_history_call (long_url short_url : string) (name : option string)
    (expiry_seconds : option Z) :
  safe (save_to_history_call long_url short_url name expiry_seconds).
Proof.
  unfold save_to_history_call. destruct (expiry_overflows expiry_seconds);
    [| apply safe_lift].
  apply safe_raise. right. right. left. reflexivity.
Qed.

Lemma safe_shorten_and_save (long_url : string) (name : option string)
    (expiry_seconds : option Z) :
  safe (shorten_and_save long_url name expiry_seconds).
Proof.
  unfold shorten_and_save. apply safe_bind. intros short.
  apply safe_bind_result; [apply safe_console_print_markup |]. intros _.
  destruct (negb (Py.contains "Error" short));
    [apply safe_save_to_history_call | apply safe_ret_value].
Qed.

Lemma safe_shorten_url_from_clipboard : safe shorten_url_from_clipboard.
Proof.
  unfold shorten_url_from_clipboard. apply safe_bind. intros long_url.
  destruct (negb (is_valid_url long_url)); [apply safe_lift |].
  apply safe_bind. intros short.
  apply safe_bind_result; [apply safe_console_print_markup |]. intros _.
  destruct (negb (Py.contains "Error" short)); [apply safe_lift | apply safe_ret_value].
Qed.

Lemma safe_update_link_call (name new_long_url : option string)
    (new_expiry_seconds : option Z) :
  safe (update_link_call name new_long_url new_expiry_seconds).
Proof.
  unfold update_link_call. destruct new_expiry_seconds as [seconds |];
    [| apply safe_lift].
  destruct (Py.float_overflow seconds); [| apply safe_lift].
  apply safe_bind. intros present. destruct (negb present); [apply safe_lift |].
  apply safe_bind. intros history. apply safe_bind.
  intros [history' | |]; [| apply safe_ret_value | apply safe_lift].
  apply safe_raise. right. right. left. reflexivity.
Qed.

Lemma safe_choice_update : safe choice_update.
Proof.
  unfold choice_update.
  apply safe_bind_result; [apply safe_input_strip |]. intros name.
  destruct (Py.truthy name); [| apply safe_lift].
  apply safe_bind_result; [apply safe_input_strip |]. intros new_long_url.
  apply safe_bind_result; [apply safe_input_strip |]. intros seconds.
  apply safe_bind_result; [apply safe_int_or_none |]. intros new_expiry_seconds.
  apply safe_update_link_call.
Qed.

Lemma ask_long_url_ends (fuel : nat) (w : World) :
  (List.length (stdin w) < fuel)%nat -> ends_well (eval (ask_long_url fuel) w).
Proof.
  intros H. destruct (ask_long_url_cases fuel w H)
    as [(u & line & -> & _) | [-> _]]; [exact I | left; reflexivity].
Qed.

Lemma choice_shorten_ends (fuel : nat) (w : World) :
  (List.length (stdin w) < fuel)%nat -> ends_well (eval (choice_shorten fuel) w).
Proof.
  intros H. unfold choice_shorten.
  apply ends_well_bind_result; [apply ask_long_url_ends; exact H |]. intros long_url _.
  apply safe_bind_result; [apply safe_input_strip |]. intros name.
  apply safe_bind_result; [apply safe_input_strip |]. intros seconds.
  apply safe_bind_result; [apply safe_int_or_none |]. intros expiry_seconds.
  apply safe_shorten_and_save.
Qed.

(** A loop resumed after an action that reads nothing has fuel enough when
    it had before. *)
Lemma resume_after {A : Type} (op : M A) (loop : M (Result unit)) (fuel : nat)
    (w : World) :
  tame op ->
  (forall w', (List.length (stdin w') < fuel)%nat -> ends_well (eval loop w')) ->
  (List.length (stdin w) < fuel)%nat ->
  ends_well (eval (bind op (fun _ => loop)) w).
Proof.
  intros Hop Hloop H. rewrite eval_bind. apply Hloop.
  pose proof (follows_stdin_length _ _ (Hop w)). lia.
Qed.

Lemma resume_after_result {A : Type} (op : M (Result A)) (loop : M (Result unit))
    (fuel : nat) (w : World) :
  tame op ->
  ends_well (eval op w) ->
  (forall w', (List.length (stdin w') < fuel)%nat -> ends_well (eval loop w')) ->
  (List.length (stdin w) < fuel)%nat ->
  ends_well (eval (bind_result op (fun _ => loop)) w).
Proof.
  intros Hop Hends Hloop H. apply ends_well_bind_result; [exact Hends |].
  intros _ _. apply Hloop. pose proof (follows_stdin_length _ _ (Hop w)). lia.
Qed.

Lemma read_choice_ends (panel : Output) (k : string -> M (Result unit)) (fuel : nat)
    (w : World) :
  (List.length (stdin w) < S fuel)%nat ->
  (forall choice w',
     (List.length (stdin w') < fuel)%nat -> ends_well (eval (k choice) w')) ->
  ends_well
    (eval (bind (lift (console_print panel)) (fun _ => bind_result input_strip k)) w).
Proof.
  intros H Hk. rewrite eval_bind.
  set (w1 := exec (lift (console_print panel)) w).
  assert (Hin : stdin w1 = stdin w) by reflexivity.
  apply ends_well_bind_result; [apply safe_input_strip |]. intros choice Hchoice.
  destruct (input_strip_eval w1) as [He Hs]. rewrite Hchoice in He.
  destruct (stdin w1) as [| line rest] eqn:Hw1; [discriminate He |].
  apply Hk. rewrite Hs. rewrite <- Hin in H. cbn in *. lia.
Qed.

Lemma other_menu_ends (fuel : nat) :
  forall w,
    (List.length (stdin w) < fuel)%nat -> ends_well (eval (other_menu fuel) w).
Proof.
  induction fuel as [| fuel IH]; intros w H; [lia |].
  cbn [other_menu]. apply (read_choice_ends _ _ fuel); [exact H |].
  intros sub_choice w' H'.
  destruct (String.eqb sub_choice "1");
    [apply (resume_after _ _ fuel); auto using tame_show_about |].
  destruct (String.eqb sub_choice "2");
    [apply (resume_after_result _ _ fuel); auto using tame_get_file, safe_get_file |].
  destruct (String.eqb sub_choice "3");
    [apply (resume_after _ _ fuel); auto using tame_usega |].
  destruct (String.eqb sub_choice "4"); [exact I |].
  apply (resume_after _ _ fuel); auto using tame_console_print.
Qed.

Lemma main_menu_ends (fuel : nat) :
  forall w,
    (List.length (stdin w) < fuel)%nat -> ends_well (eval (main_menu fuel) w).
Proof.
  induction fuel as [| fuel IH]; intros w H; [lia |].
  cbn [main_menu]. apply (read_choice_ends _ _ fuel); [exact H |].
  intros choice w' H'.
  destruct (String.eqb choice "1");
    [apply (resume_after_result _ _ fuel);
       auto using tame_choice_shorten, choice_shorten_ends |].
  destruct (String.eqb choice "2");
    [apply (resume_after_result _ _ fuel);
       auto using tame_show_history, safe_show_history |].
  destruct (String.eqb choice "3");
    [apply (resume_after_result _ _ fuel);
       auto using tame_choice_update, safe_choice_update |].
  destruct (String.eqb choice "4");
    [apply (resume_after _ _ fuel); auto using tame_delete_expired_links |].
  destruct (String.eqb choice "5");
    [apply (resume_after_result _ _ fuel);
       auto using tame_shorten_url_from_clipboard, safe_shorten_url_from_clipboard |].
  destruct (String.eqb choice "6");
    [apply (resume_after_result _ _ fuel);
       auto using tame_remind_expiring_links, safe_remind_expiring_links |].
  destruct (String.eqb choice "7");
    [apply (resume_after_result _ _ fuel);
       auto using tame_other_menu, other_menu_ends |].
  destruct (String.eqb choice "8"); [apply safe_lift |].
  apply (resume_after _ _ fuel); auto using tame_console_print.
Qed.

(** X17.  On any finite input the menu ends: one unit of fuel per typed
    line, and one more, is always enough, nested loops included.  It ends
    by choice 8 or by an exception that nothing catches: [EOFError] when
    the input runs out, [ValueError] when [int] refuses an expiry that
    [isdigit] accepted, [OverflowError] when a typed expiry is too large
    for a float, [MarkupError] when the console refuses a text made from a
    URL, a name or a path, or the exception of [time.ctime] on a stored
    expiry. *)
Theorem main_menu_terminates (w : World) (fuel : nat) :
  (List.length (stdin w) < fuel)%nat ->
  eval (main_menu fuel) w = Value tt \/
  exists e : Exception,
    eval (main_menu fuel) w = Stopped e /\
    (e = EOFError \/ e = ValueError \/ e = OverflowError \/ e = MarkupError \/
     exists t, ctime_error t = Some e).
Proof.
  intros H. pose proof (main_menu_ends fuel w H) as Hends.
  destruct (eval (main_menu fuel) w) as [[] | [e |]].
  - left. reflexivity.
  - right. exists e. split; [reflexivity | exact Hends].
  - destruct Hends.
Qed.

(** *** The submenu and the answers of the menu *)

Lemma quiet_other_menu (fuel : nat) : quiet (other_menu fuel).
Proof.
  induction fuel as [| fuel IH]; cbn [other_menu]; [apply quiet_ret |].
  apply quiet_bind; [apply quiet_lift, quiet_console_print |]. intros _.
  apply quiet_bind_result; [apply quiet_input_strip |]. intros sub_choice.
  destruct (String.eqb sub_choice "1");
    [apply quiet_bind; [apply quiet_console_print | intros _; exact IH] |].
  destruct (String.eqb sub_choice "2");
    [apply quiet_bind_result;
       [apply quiet_printing, prints_get_file | intros _; exact IH] |].
  destruct (String.eqb sub_choice "3");
    [apply quiet_bind; [apply quiet_console_print | intros _; exact IH] |].
  destruct (String.eqb sub_choice "4"); [apply quiet_ret |].
  apply quiet_bind; [apply quiet_console_print | intros _; exact IH].
Qed.

(** X18.  Whatever is typed in the "Other" submenu, and however long the
    visit, the history file, the request log, the sleeps, the clock and
    the clipboard are as they were on entering it. *)
Theorem other_menu_changes_nothing (fuel : nat) (w : World) :
  file (exec (other_menu fuel) w) = file w /\
  requests (exec (other_menu fuel) w) = requests w /\
  sleeps (exec (other_menu fuel) w) = sleeps w /\
  clock (exec (other_menu fuel) w) = clock w /\
  clipboard (exec (other_menu fuel) w) = clipboard w.
Proof. apply quiet_other_menu. Qed.


Lemma update_link_call_not_found (name new_long_url : option string)
    (new_expiry_seconds : option Z) (w : World) :
  (forall entry, In entry (stored w) -> Py.eq_opt (custom_name entry) name = false) ->
  file (exec (update_link_call name new_long_url new_expiry_seconds) w) = file w.
Proof.
  intros Hnone.
  assert (Hupdate :
    file (exec (lift (update_link name new_long_url new_expiry_seconds)) w) = file w).
  { unfold lift. rewrite exec_bind. unfold exec at 1, ret. cbn [snd].
    unfold exec. unfold stored in Hnone. destruct (file w) as [history |] eqn:Hfile.
    - rewrite (update_link_run _ _ _ _ _ Hfile),
        (update_scan_not_found _ _ _ _ Hnone).
      cbn. exact Hfile.
    - rewrite (update_link_no_file _ _ _ _ Hfile). cbn. exact Hfile. }
  unfold update_link_call. destruct new_expiry_seconds as [seconds |]; [| exact Hupdate].
  destruct (Py.float_overflow seconds); [| exact Hupdate].
  clear Hupdate. unfold stored in Hnone.
  destruct w as [[history |] now srv reqs slept out keys clip dir];
    unfold exec, bind, history_exists, json_load; cbn [file negb] in *.
  - rewrite (update_scan_not_found _ _ _ _ Hnone). reflexivity.
  - reflexivity.
Qed.

(** X20.  A record saved without a custom name cannot be changed from the
    menu: the update choice asks for a non-empty name, so when no stored
    record bears the typed name (in particular when none has a name at
    all) it leaves the history file as it was, whatever else is typed. *)
Theorem choice_update_needs_name (w : World) :
  (forall entry, In entry (stored w) -> custom_name entry = None) ->
  file (exec choice_update w) = file w.
Proof.
  intros Hnone.
  assert (Hupdate : forall name url seconds w',
            file w' = file w -> Py.truthy name = true ->
            file (exec (update_link_call (Some name) url seconds) w') = file w).
  { intros name url seconds w' Hf Ht. rewrite update_link_call_not_found; [exact Hf |].
    intros entry Hin. rewrite (Hnone entry); [reflexivity |].
    unfold stored in *. rewrite <- Hf. exact Hin. }
  unfold choice_update. rewrite exec_bind_result.
  destruct (input_strip_store w) as [Hf1 _].
  destruct (eval input_strip w) as [name | why]; [| exact Hf1].
  destruct (Py.truthy name) eqn:Ht.
  - rewrite exec_bind_result.
    destruct (input_strip_store (exec input_strip w)) as [Hf2 _].
    destruct (eval input_strip (exec input_strip w)) as [url | why];
      [| congruence].
    rewrite exec_bind_result.
    destruct (input_strip_store (exec input_strip (exec input_strip w)))
      as [Hf3 _].
    destruct (eval input_strip (exec input_strip (exec input_strip w)))
      as [seconds | why]; [| congruence].
    rewrite exec_bind_result_ret.
    destruct (int_or_none seconds) as [new_expiry_seconds | why]; [| congruence].
    apply Hupdate; [congruence | exact Ht].
  - unfold lift. rewrite exec_bind. cbn. exact Hf1.
Qed.

End ShortLink.

(** ** The properties on examples *)

Lemma shorten_url_invalid_witness :
  is_valid_url urlparse_basic "not a url" = false /\
  eval (shorten_url urlparse_basic "not a url") (session None 1700000000 online)
    = "Invalid URL format." /\
  requests (exec (shorten_url urlparse_basic "not a url")
              (session None 1700000000 online)) = [].
Proof.
  split; [reflexivity |].
  destruct (shorten_url_invalid urlparse_basic "not a url"
              (session None 1700000000 online)) as (Hr & _ & Hq);
    [reflexivity |].
  split; [exact Hr | exact Hq].
Defined.

Lemma shorten_url_third_attempt_witness :
  eval (shorten_url urlparse_basic "https://example.com/page")
       (session None 1700000000 flaky) = "http://tinyurl.com/abc" /\
  List.length (requests (exec (shorten_url urlparse_basic "https://example.com/page")
                           (session None 1700000000 flaky))) = 3%nat /\
  sleeps (exec (shorten_url urlparse_basic "https://example.com/page")
            (session None 1700000000 flaky)) = [1; 1].
Proof.
  destruct (shorten_url_third_attempt urlparse_basic "https://example.com/page"
              (session None 1700000000 flaky)) as (Hr & Hq & Hs);
    [reflexivity | reflexivity | reflexivity | reflexivity |].
  split; [exact Hr |]. split; [rewrite Hq; reflexivity | exact Hs].
Defined.

(** C8.  With a valid URL and a server that refuses all three attempts,
    [shorten_url] sleeps three times, the third time after its final
    attempt: three seconds, not two. *)
Theorem shorten_url_sleeps_after_final_attempt :
  is_valid_url urlparse_basic "https://example.com/page" = true /\
  eval (shorten_url urlparse_basic "https://example.com/page")
       (session None 1700000000 offline) = "Connection Error: Connection refused" /\
  List.length (requests (exec (shorten_url urlparse_basic "https://example.com/page")
                           (session None 1700000000 offline))) = 3%nat /\
  sleeps (exec (shorten_url urlparse_basic "https://example.com/page")
            (session None 1700000000 offline)) = [1; 1; 1].
Proof. repeat split. Qed.


(** C3 as stated fails: a record whose expiry is set to 0, which is
    strictly earlier than the current time, is not removed. *)
Lemma delete_expired_links_keeps_zero_expiry :
  expiry_timestamp (sample_entry "zero" (Some 0)) = Some 0 /\
  0 < clock (session (Some [sample_entry "zero" (Some 0)]) 1700000000 online) /\
  file (exec delete_expired_links
          (session (Some [sample_entry "zero" (Some 0)]) 1700000000 online))
    = Some [sample_entry "zero" (Some 0)].
Proof. repeat split. Qed.

Lemma delete_expired_links_prunes_witness :
  exists kept,
    file (exec delete_expired_links (session (Some mixed_history) 1700000000 online))
      = Some kept /\
    kept = [ sample_entry "zero" (Some 0); sample_entry "keep" None;
             sample_entry "soon" (Some 1700003600) ] /\
    file (exec delete_expired_links
            (exec delete_expired_links
               (session (Some mixed_history) 1700000000 online))) = Some kept.
Proof.
  destruct (delete_expired_links_prunes
              (session (Some mixed_history) 1700000000 online) mixed_history eq_refl)
    as (kept & Hfile & Hkept & _ & _ & Htwice).
  exists kept. split; [exact Hfile |]. split; [rewrite Hkept; reflexivity | exact Htwice].
Defined.

(** C7.  A record that expired 10000 seconds ago is reminded of as "about
    to expire": the test of the loop has no lower bound. *)
Theorem remind_expiring_links_reminds_expired :
  is_expired 1700000000 (sample_entry "old" (Some 1699990000)) = true /\
  console (exec (remind_expiring_links ctime_basic markup_basic ctime_error_basic)
             (session (Some [sample_entry "old" (Some 1699990000)]) 1700000000 online))
    = [ Print "[bold yellow]Reminder: Link 'http://tinyurl.com/abc' is about to expire.[/bold yellow]";
        Print "[bold white]Long URL: https://example.com/page[/bold white]";
        Print "[bold red]Expires at: t=1699990000[/bold red]";
        Print "----------------------------------------" ].
Proof. split; reflexivity. Qed.

(** C6 as stated fails: the empty string fails validation, yet with it
    [update_link] applies the new expiry and rewrites the history. *)
Lemma update_link_empty_url_applies_expiry :
  is_valid_url urlparse_basic EmptyString = false /\
  file (exec (update_link urlparse_basic (Some "home") (Some EmptyString) (Some 60))
          (session (Some [sample_entry "home" None]) 1700000000 online))
    = Some [sample_entry "home" (Some 1700000060)] /\
  file (exec (update_link urlparse_basic (Some "home") (Some EmptyString) (Some 60))
          (session (Some [sample_entry "home" None]) 1700000000 online))
    <> file (session (Some [sample_entry "home" None]) 1700000000 online).
Proof. repeat split. discriminate. Qed.

Lemma update_link_failure_keeps_history_witness :
  file (exec (update_link urlparse_basic (Some "home") (Some "not a url") (Some 60))
          (session (Some [sample_entry "home" None]) 1700000000 online))
    = Some [sample_entry "home" None] /\
  requests (exec (update_link urlparse_basic (Some "home") (Some "not a url") (Some 60))
              (session (Some [sample_entry "home" None]) 1700000000 online)) = [].
Proof.
  apply (update_link_failure_keeps_history urlparse_basic (Some "home")
           (Some "not a url") (Some 60)
           (session (Some [sample_entry "home" None]) 1700000000 online)).
  right. exists "not a url". split; [reflexivity |].
  split; [discriminate | reflexivity].
Defined.




Lemma zero_expiry_asymmetry_witness :
  file (exec (save_to_history ctime_basic "https://example.com/page"
                "http://tinyurl.com/abc" (Some "home") (Some 0))
          (session None 1700000000 online))
    = Some [mkEntry "https://example.com/page" "http://tinyurl.com/abc"
                    "t=1700000000" (Some "home") None] /\
  exists entry',
    file (exec (update_link urlparse_basic (Some "home") None (Some 0))
            (session (Some [sample_entry "home" (Some 1700003600)])
                     1700000000 online))
      = Some [entry'] /\
    entry' = sample_entry "home" (Some 1700000000) /\
    is_expired 1700000001 entry' = true.
Proof.
  destruct (zero_expiry_asymmetry urlparse_basic ctime_basic
              (session None 1700000000 online)
              (session (Some [sample_entry "home" (Some 1700003600)])
                       1700000000 online)
              "https://example.com/page" "http://tinyurl.com/abc"
              (Some "home") (Some "home") None [] []
              (sample_entry "home" (Some 1700003600)))
    as ((Hsave & _) & entry' & Hfile & _ & Hentry & Hlater);
    [reflexivity | split; [intros other [] | reflexivity] | discriminate |].
  split; [rewrite Hsave; reflexivity |].
  exists entry'. split; [exact Hfile |].
  split; [rewrite Hentry by reflexivity; reflexivity |].
  apply Hlater; [discriminate | reflexivity].
Defined.

(** ** The further properties on examples *)

Lemma get_short_url_failure_marked_witness :
  Py.contains "Error"
    (eval (get_short_url SHORTENER_API "https://example.com/page")
          (session None 1700000000 offline)) = true /\
  exec (get_short_url SHORTENER_API "https://example.com/page")
       (session None 1700000000 offline) =
    set_requests
      ([] ++ [(SHORTENER_API ++ "https://example.com/page")%string])%list
      (session None 1700000000 offline).
Proof.
  apply (get_short_url_failure_marked SHORTENER_API "https://example.com/page"
           (session None 1700000000 offline)).
  intros text. discriminate.
Defined.

Lemma shorten_url_first_attempt_witness :
  eval (shorten_url urlparse_basic "https://example.com/page")
       (session None 1700000000 online) = "http://tinyurl.com/abc" /\
  sleeps (exec (shorten_url urlparse_basic "https://example.com/page")
            (session None 1700000000 online)) = [].
Proof.
  destruct (shorten_url_first_attempt urlparse_basic "https://example.com/page"
              (session None 1700000000 online)) as [Hr Hw];
    [reflexivity | reflexivity |].
  split; [exact Hr | rewrite Hw; reflexivity].
Defined.

Lemma shorten_url_attempts_witness :
  exists k,
    (1 <= k <= 3)%nat /\
    requests (exec (shorten_url urlparse_basic "https://example.com/page")
                (session None 1700000000 flaky)) =
      ([] ++ repeat (SHORTENER_API ++ "https://example.com/page")%string k)%list.
Proof.
  destruct (shorten_url_attempts urlparse_basic "https://example.com/page"
              (session None 1700000000 flaky)) as (k & Hk & Hreq & _);
    [reflexivity |].
  exists k. split; [exact Hk | exact Hreq].
Defined.

Lemma shorten_url_all_raise_witness :
  eval (shorten_url urlparse_basic "https://example.com/page")
       (session None 1700000000 offline) = "Connection Error: Connection refused" /\
  Py.contains "Error"
    (eval (shorten_url urlparse_basic "https://example.com/page")
          (session None 1700000000 offline)) = true.
Proof.
  destruct (shorten_url_all_raise urlparse_basic "https://example.com/page"
              (session None 1700000000 offline)) as (Hr & Hc & _);
    [reflexivity | intros k text _; discriminate |].
  split; [exact Hr | exact Hc].
Defined.



Lemma missing_file_reported_witness :
  exec delete_expired_links (session None 1700000000 online)
    = exec (console_print not_found_notice) (session None 1700000000 online) /\
  exec (update_link urlparse_basic (Some "home") None (Some 60))
       (session None 1700000000 online)
    = exec (console_print not_found_notice) (session None 1700000000 online).
Proof.
  destruct (missing_file_reported urlparse_basic ctime_basic markup_basic
              ctime_error_basic (Some "home") None
              (Some 60) (session None 1700000000 online) eq_refl)
    as (_ & Hd & Hu & _).
  split; [exact Hd | exact Hu].
Defined.

Lemma show_history_lists_survivors_witness :
  eval (show_history ctime_basic markup_basic ctime_error_basic)
       (session (Some mixed_history) 1700000000 online) = Value tt /\
  console (exec (show_history ctime_basic markup_basic ctime_error_basic)
             (session (Some mixed_history) 1700000000 online)) =
    [PrintTable (map (table_row ctime_basic)
       [ sample_entry "zero" (Some 0); sample_entry "keep" None;
         sample_entry "soon" (Some 1700003600) ])].
Proof.
  destruct (show_history_lists_survivors ctime_basic markup_basic ctime_error_basic
              (session (Some mixed_history) 1700000000 online)
              (sample_entry "old" (Some 1699990000))
              [ sample_entry "zero" (Some 0); sample_entry "keep" None;
                sample_entry "soon" (Some 1700003600) ] eq_refl)
    as (_ & Hconsole & _).
  split; [reflexivity |]. rewrite Hconsole; reflexivity.
Defined.

Lemma remind_expiring_links_reminders_witness :
  eval (remind_expiring_links ctime_basic markup_basic ctime_error_basic)
       (session (Some mixed_history) 1700000000 online) = Value tt /\
  console (exec (remind_expiring_links ctime_basic markup_basic ctime_error_basic)
             (session (Some mixed_history) 1700000000 online)) =
    (reminder ctime_basic (sample_entry "old" (Some 1699990000)) 1699990000
     ++ reminder ctime_basic (sample_entry "soon" (Some 1700003600)) 1700003600)%list.
Proof.
  destruct (remind_expiring_links_reminders ctime_basic markup_basic ctime_error_basic
              (session (Some mixed_history) 1700000000 online) mixed_history eq_refl)
    as (_ & Hall & _).
  destruct Hall as [Hvalue Hconsole].
  - intros entry t Hin Ht _.
    destruct Hin as [<- | [<- | [<- | [<- | []]]]];
      cbn in Ht; try discriminate Ht; injection Ht as <-; reflexivity.
  - split; [exact Hvalue | rewrite Hconsole; reflexivity].
Defined.

Lemma clipboard_record_never_expires_witness :
  exists older entry,
    file (exec (shorten_url_from_clipboard urlparse_basic ctime_basic markup_basic)
            (pasting "https://example.com/page" flaky))
      = Some (older ++ [entry])%list /\
    custom_name entry = None /\ expiry_timestamp entry = None.
Proof.
  pose proof (clipboard_record_never_expires urlparse_basic ctime_basic markup_basic
                (pasting "https://example.com/page" flaky) eq_refl eq_refl) as H.
  cbv beta iota in H.
  change (markup_basic
            (shortened_line
               (eval (shorten_url urlparse_basic (clipboard (pasting "https://example.com/page" flaky)))
                     (pasting "https://example.com/page" flaky))))
    with true in H.
  destruct H as (older & entry & Hf & _ & _ & Hn & He & _).
  exists older, entry. split; [exact Hf |]. split; [exact Hn | exact He].
Defined.

Lemma main_menu_keeps_bound_witness :
  (List.length
     (stored (exec (main_menu urlparse_basic ctime_basic isdigit_basic int_basic
                      markup_basic ctime_error_basic 12) busy_session))
     <= 5)%nat.
Proof.
  apply (main_menu_keeps_bound urlparse_basic ctime_basic isdigit_basic int_basic
           markup_basic ctime_error_basic 12 busy_session).
  cbn. lia.
Defined.


Lemma main_menu_terminates_witness :
  eval (main_menu urlparse_basic ctime_basic isdigit_basic int_basic markup_basic
          ctime_error_basic 12) busy_session = Value tt \/
  exists e : Exception,
    eval (main_menu urlparse_basic ctime_basic isdigit_basic int_basic markup_basic
            ctime_error_basic 12) busy_session = Stopped e /\
    (e = EOFError \/ e = ValueError \/ e = OverflowError \/ e = MarkupError \/
     exists t, ctime_error_basic t = Some e).
Proof.
  apply (main_menu_terminates urlparse_basic ctime_basic isdigit_basic int_basic
           markup_basic ctime_error_basic busy_session 12).
  cbn. lia.
Defined.





Lemma choice_update_needs_name_witness :
  file (exec (choice_update urlparse_basic isdigit_basic int_basic)
          (set_stdin ["home"; "https://example.org/"; "60"]
             (session (Some [unnamed_entry]) 1700000000 online)))
    = Some [unnamed_entry].
Proof.
  apply (choice_update_needs_name urlparse_basic isdigit_basic int_basic
           (set_stdin ["home"; "https://example.org/"; "60"]
              (session (Some [unnamed_entry]) 1700000000 online))).
  intros entry [<- | []]. reflexivity.
Defined.

(** ** Runs that an exception ends *)

(** The expiry answer is the superscript two, which [isdigit] accepts and
    [int] refuses: the menu stops with [ValueError] before anything is
    shortened or saved, and the next line is left unread. *)
Lemma menu_stops_on_superscript_two :
  eval (main_menu urlparse_basic ctime_basic isdigit_basic int_basic markup_basic
          ctime_error_basic 6)
       (typing ["1"; "https://example.com/page"; "home"; superscript_two; "8"] online)
    = Stopped ValueError /\
  file (exec (main_menu urlparse_basic ctime_basic isdigit_basic int_basic markup_basic
                ctime_error_basic 6)
          (typing ["1"; "https://example.com/page"; "home"; superscript_two; "8"]
                  online))
    = Some [] /\
  requests (exec (main_menu urlparse_basic ctime_basic isdigit_basic int_basic
                    markup_basic ctime_error_basic 6)
              (typing ["1"; "https://example.com/page"; "home"; superscript_two; "8"]
                      online))
    = [] /\
  stdin (exec (main_menu urlparse_basic ctime_basic isdigit_basic int_basic
                 markup_basic ctime_error_basic 6)
           (typing ["1"; "https://example.com/page"; "home"; superscript_two; "8"]
                   online))
    = ["8"].
Proof. repeat split. Qed.

(** The expiry answer has 310 digits: the URL is shortened and the result
    shown, then the sum with the clock raises [OverflowError] and no record
    is saved. *)
Lemma menu_stops_on_expiry_of_310_digits :
  String.length ("1" ++ Py.repeat_str "0" 309) = 310%nat /\
  eval (main_menu urlparse_basic ctime_basic isdigit_basic int_basic markup_basic
          ctime_error_basic 6)
       (typing ["1"; "https://example.com/page"; "home";
                "1" ++ Py.repeat_str "0" 309; "8"] online)
    = Stopped OverflowError /\
  file (exec (main_menu urlparse_basic ctime_basic isdigit_basic int_basic markup_basic
                ctime_error_basic 6)
          (typing ["1"; "https://example.com/page"; "home";
                   "1" ++ Py.repeat_str "0" 309; "8"] online))
    = Some [] /\
  requests (exec (main_menu urlparse_basic ctime_basic isdigit_basic int_basic
                    markup_basic ctime_error_basic 6)
              (typing ["1"; "https://example.com/page"; "home";
                       "1" ++ Py.repeat_str "0" 309; "8"] online))
    = ["http://tinyurl.com/api-create.php?url=https://example.com/page"] /\
  stdin (exec (main_menu urlparse_basic ctime_basic isdigit_basic int_basic
                 markup_basic ctime_error_basic 6)
           (typing ["1"; "https://example.com/page"; "home";
                    "1" ++ Py.repeat_str "0" 309; "8"] online))
    = ["8"].
Proof. vm_compute. repeat split. Qed.

(** A URL with a closing tag that matches no open tag is saved through
    choice 1; listing the history then raises [MarkupError] and shows no
    table, and a reminder of the record stops after its first line. *)
Lemma menu_stops_on_stored_markup :
  eval (main_menu urlparse_basic ctime_basic isdigit_basic int_basic markup_basic
          ctime_error_basic 6)
       (typing ["1"; "https://example.com/a[/b]"; "home"; "60"; "2"; "8"] online)
    = Stopped MarkupError /\
  file (exec (main_menu urlparse_basic ctime_basic isdigit_basic int_basic markup_basic
                ctime_error_basic 6)
          (typing ["1"; "https://example.com/a[/b]"; "home"; "60"; "2"; "8"] online))
    = Some [mkEntry "https://example.com/a[/b]" "http://tinyurl.com/abc"
                    "t=1700000000" (Some "home") (Some 1700000060)] /\
  console (exec (show_history ctime_basic markup_basic ctime_error_basic)
             (session (Some [mkEntry "https://example.com/a[/b]"
                                     "http://tinyurl.com/abc" "t=1700000000"
                                     (Some "home") (Some 1700000060)])
                      1700000000 online))
    = [] /\
  eval (remind_expiring_links ctime_basic markup_basic ctime_error_basic)
       (session (Some [mkEntry "https://example.com/a[/b]" "http://tinyurl.com/abc"
                               "t=1700000000" (Some "home") (Some 1700000060)])
                1700000000 online)
    = Stopped MarkupError /\
  console (exec (remind_expiring_links ctime_basic markup_basic ctime_error_basic)
             (session (Some [mkEntry "https://example.com/a[/b]"
                                     "http://tinyurl.com/abc" "t=1700000000"
                                     (Some "home") (Some 1700000060)])
                      1700000000 online))
    = [Print "[bold yellow]Reminder: Link 'http://tinyurl.com/abc' is about to expire.[/bold yellow]"].
Proof. vm_compute. repeat split. Qed.

(** An expiry of thirty digits is saved, and [time.ctime] refuses it when
    the history is listed. *)
Lemma menu_stops_on_stored_expiry :
  eval (main_menu urlparse_basic ctime_basic isdigit_basic int_basic markup_basic
          ctime_error_basic 6)
       (typing ["1"; "https://example.com/page"; "home";
                "1" ++ Py.repeat_str "0" 29; "2"; "8"] online)
    = Stopped OverflowError /\
  file (exec (main_menu urlparse_basic ctime_basic isdigit_basic int_basic markup_basic
                ctime_error_basic 6)
          (typing ["1"; "https://example.com/page"; "home";
                   "1" ++ Py.repeat_str "0" 29; "2"; "8"] online))
    = Some [mkEntry "https://example.com/page" "http://tinyurl.com/abc"
                    "t=1700000000" (Some "home")
                    (Some (1700000000 + 10 ^ 29))].
Proof. vm_compute. repeat split. Qed.

(** A clean answer that holds a closing tag cannot be shown either, and is
    not saved. *)
Lemma clipboard_flow_stops_on_answer_with_tag :
  Py.contains "Error" "http://tinyurl.com/a[/b]" = false /\
  eval (shorten_url_from_clipboard urlparse_basic ctime_basic markup_basic)
       (pasting "https://example.com/page" (fun _ _ => Body "http://tinyurl.com/a[/b]"))
    = Stopped MarkupError /\
  file (exec (shorten_url_from_clipboard urlparse_basic ctime_basic markup_basic)
          (pasting "https://example.com/page"
             (fun _ _ => Body "http://tinyurl.com/a[/b]")))
    = Some [].
Proof. vm_compute. repeat split. Qed.

(** With the network down the error text names the URL: when the URL holds
    a closing tag, the line that shows the failure cannot be printed. *)
Lemma clipboard_flow_stops_on_error_text :
  eval (shorten_url_from_clipboard urlparse_basic ctime_basic markup_basic)
       (pasting "https://example.com/a[/b]"
          (fun _ url => ConnectionError ("Max retries exceeded with url: " ++ url)))
    = Stopped MarkupError /\
  file (exec (shorten_url_from_clipboard urlparse_basic ctime_basic markup_basic)
          (pasting "https://example.com/a[/b]"
             (fun _ url => ConnectionError ("Max retries exceeded with url: " ++ url))))
    = Some [].
Proof. vm_compute. repeat split. Qed.
